(** * KSEB smart line monitor: the pole / alert state of [MapControlPanel]

    A shallow embedding of the client-side state machine found in
    [src/components/MapControlPanel.tsx]: the pole registry and the alert
    log held in React state, and the handlers that rewrite them
    ([handleAddIssue], [handleFixIssue], [handleIsolatePole],
    [handleRestorePole], [handleDeleteAlert], [handleResetConfirm],
    [handleToggleAlertExpand]), followed by the properties of the
    specification that concern them. *)

From Stdlib Require Import ZArith NArith Lia.
From Stdlib Require Import Floats.SpecFloat.
From Stdlib Require Import DecimalString.
From Stdlib Require DecimalPos DecimalN.
From stdpp Require Import base list strings.

(** ** JavaScript numbers

    A JavaScript [number] is an IEEE 754 binary64 value.  The standard
    library's [spec_float] gives the bit-level meaning of the arithmetic
    operators, with round-to-nearest-even written out. *)
Module Number.

Definition prec : Z := 53.
Definition emax : Z := 1024.

Definition t : Type := spec_float.

Definition add : t -> t -> t := SFadd prec emax.
Definition mul : t -> t -> t := SFmul prec emax.
Definition div : t -> t -> t := SFdiv prec emax.
Definition leb : t -> t -> bool := SFleb.
Definition ltb : t -> t -> bool := SFltb.

(** An integer literal such as [230]. *)
Definition of_Z (z : Z) : t := binary_normalize prec emax z 0 false.

(** A decimal literal [d / 10^k] such as [10.8505]: numerator and
    denominator are exact, so the correctly rounded quotient is the value
    the literal denotes. *)
Definition decimal (d : Z) (k : Z) : t := div (of_Z d) (of_Z (10 ^ k)).

(** What [Math.random()] may return: a finite binary64 value [r] with
    [0 <= r < 1]. *)
Definition unit_draw (r : t) : bool :=
  valid_binary prec emax r && leb (of_Z 0) r && ltb r (of_Z 1).

End Number.

Abbreviation number := Number.t.

(** ** Data model (lines 26-49) *)

Inductive Status : Set := healthy | faulty | isolated | maintenance.
Inductive Severity : Set := low | medium | high.
Inductive CreatedBy : Set := system | manual.

Global Instance Status_eq_dec : EqDecision Status.
Proof. solve_decision. Defined.
Global Instance Severity_eq_dec : EqDecision Severity.
Proof. solve_decision. Defined.

(** [interface PoleData]; a field marked [?] in the source is an [option]. *)
Module PoleData.
Record t : Type := mk {
  id : string;
  lat : number;
  lng : number;
  status : Status;
  voltage : number;
  current : number;
  location : string;
  lastUpdated : string;
  faultType : option string;
  severity : option Severity;
  isolatedBy : option string;
  isolatedAt : option string
}.
End PoleData.

(** [interface Alert]. *)
Module Alert.
Record t : Type := mk {
  id : string;
  poleId : string;
  message : string;
  timestamp : string;
  severity : Severity;
  isExpanded : option bool;
  createdBy : option CreatedBy
}.
End Alert.

(** The object literal that [AddIssueModal] passes as [issueData]
    (lines 834-838). *)
Module IssueData.
Record t : Type := mk {
  faultType : string;
  severity : Severity;
  description : string
}.
End IssueData.

(** ** Mock data (lines 52-127) *)

Definition mockPoles : list PoleData.t := [
  {| PoleData.id := "P001";
     PoleData.lat := Number.decimal 108505 4;
     PoleData.lng := Number.decimal 762711 4;
     PoleData.status := faulty;
     PoleData.voltage := Number.of_Z 210;
     PoleData.current := Number.of_Z 15;
     PoleData.location := "Kochi Central";
     PoleData.lastUpdated := "2024-01-15T10:30:00Z";
     PoleData.faultType := Some "Voltage Drop";
     PoleData.severity := Some high;
     PoleData.isolatedBy := None;
     PoleData.isolatedAt := None |};
  {| PoleData.id := "P002";
     PoleData.lat := Number.decimal 112588 4;
     PoleData.lng := Number.decimal 757804 4;
     PoleData.status := healthy;
     PoleData.voltage := Number.of_Z 230;
     PoleData.current := Number.of_Z 18;
     PoleData.location := "Kozhikode North";
     PoleData.lastUpdated := "2024-01-15T10:29:00Z";
     PoleData.faultType := None;
     PoleData.severity := None;
     PoleData.isolatedBy := None;
     PoleData.isolatedAt := None |};
  {| PoleData.id := "P003";
     PoleData.lat := Number.decimal 85241 4;
     PoleData.lng := Number.decimal 769366 4;
     PoleData.status := isolated;
     PoleData.voltage := Number.of_Z 0;
     PoleData.current := Number.of_Z 0;
     PoleData.location := "Thiruvananthapuram East";
     PoleData.lastUpdated := "2024-01-15T10:25:00Z";
     PoleData.faultType := Some "Current Spike";
     PoleData.severity := Some medium;
     PoleData.isolatedBy := Some "Admin";
     PoleData.isolatedAt := Some "2024-01-15T09:45:00Z" |};
  {| PoleData.id := "P004";
     PoleData.lat := Number.decimal 99312 4;
     PoleData.lng := Number.decimal 762673 4;
     PoleData.status := healthy;
     PoleData.voltage := Number.of_Z 235;
     PoleData.current := Number.of_Z 14;
     PoleData.location := "Ernakulam";
     PoleData.lastUpdated := "2024-01-15T10:28:00Z";
     PoleData.faultType := None;
     PoleData.severity := None;
     PoleData.isolatedBy := None;
     PoleData.isolatedAt := None |};
  {| PoleData.id := "P005";
     PoleData.lat := Number.decimal 105276 4;
     PoleData.lng := Number.decimal 762144 4;
     PoleData.status := maintenance;
     PoleData.voltage := Number.of_Z 220;
     PoleData.current := Number.of_Z 10;
     PoleData.location := "Thrissur";
     PoleData.lastUpdated := "2024-01-15T10:27:00Z";
     PoleData.faultType := Some "Scheduled Maintenance";
     PoleData.severity := None;
     PoleData.isolatedBy := None;
     PoleData.isolatedAt := None |}
].

Definition mockAlerts : list Alert.t := [
  {| Alert.id := "A001";
     Alert.poleId := "P001";
     Alert.message := "Pole #P001 - Voltage Drop Detected";
     Alert.timestamp := "2024-01-15T10:30:00Z";
     Alert.severity := high;
     Alert.isExpanded := None;
     Alert.createdBy := None |};
  {| Alert.id := "A002";
     Alert.poleId := "P003";
     Alert.message := "Pole #P003 - Current Spike Warning";
     Alert.timestamp := "2024-01-15T10:25:00Z";
     Alert.severity := medium;
     Alert.isExpanded := None;
     Alert.createdBy := None |}
].

(** ** Component state and effects

    The two [useState] cells the handlers write, the [toast] notifications
    they emit, and the readings they take from the outside world. *)

Record State : Type := mkState {
  poles : list PoleData.t;
  alerts : list Alert.t
}.

(** [useState(mockPoles)], [useState(mockAlerts)] (lines 364-365). *)
Definition initialState : State :=
  {| poles := mockPoles; alerts := mockAlerts |}.

Inductive Toast : Type :=
  | toast_success (message : string)
  | toast_error (message : string)
  | toast_info (message : string).

(** Readings of the clock and of the random generator.  A [map] callback
    receives the index of the element it rewrites, and every evaluation of
    [new Date()] or [Math.random()] is a reading of its own, so the
    readings taken inside a callback are indexed by the position [i] of
    the pole and by their order [k] in the object literal. *)
Record Env : Type := mkEnv {
  Date_now : N;
  Date_toISOString : string;
  Date_toISOString_in_map : nat -> nat -> string;
  Math_random : nat -> nat -> number
}.

(** A handler is a state transformer that also logs its notifications. *)
Definition Handler (A : Type) : Type := State -> A * State * list Toast.

Global Instance Handler_ret : MRet Handler := fun A a s => (a, s, []).

Global Instance Handler_bind : MBind Handler := fun A B k h s =>
  let '(a, s1, ts1) := h s in
  let '(b, s2, ts2) := k a s1 in
  (b, s2, ts1 ++ ts2).

(** [setPoles(prev => f prev)] and [setAlerts(prev => f prev)]. *)
Definition setPoles (f : list PoleData.t -> list PoleData.t) : Handler unit :=
  fun s => (tt, {| poles := f (poles s); alerts := alerts s |}, []).

Definition setAlerts (f : list Alert.t -> list Alert.t) : Handler unit :=
  fun s => (tt, {| poles := poles s; alerts := f (alerts s) |}, []).

Definition toast (t : Toast) : Handler unit := fun s => (tt, s, [t]).

Definition exec {A} (h : Handler A) (s : State) : State := (h s).1.2.
Definition emitted {A} (h : Handler A) (s : State) : list Toast := (h s).2.

(** [`A${n}`]: a natural number in a template literal prints in decimal. *)
Definition string_of_N (n : N) : string := NilZero.string_of_uint (N.to_uint n).

(** ** The handlers (lines 385-499) *)

Section Handlers.
Variable env : Env.

Definition handleAddIssue (poleId : string) (issueData : IssueData.t)
  : Handler unit :=
  setPoles (fun prev => imap (fun i pole =>
    if (PoleData.id pole =? poleId)%string then
      {| PoleData.id := PoleData.id pole;
         PoleData.lat := PoleData.lat pole;
         PoleData.lng := PoleData.lng pole;
         PoleData.status := faulty;
         PoleData.voltage := PoleData.voltage pole;
         PoleData.current := PoleData.current pole;
         PoleData.location := PoleData.location pole;
         PoleData.lastUpdated := Date_toISOString_in_map env i 0;
         PoleData.faultType := Some (IssueData.faultType issueData);
         PoleData.severity := Some (IssueData.severity issueData);
         PoleData.isolatedBy := PoleData.isolatedBy pole;
         PoleData.isolatedAt := PoleData.isolatedAt pole |}
    else pole) prev) ;;
  let newAlert :=
    {| Alert.id := "A" +:+ string_of_N (Date_now env);
       Alert.poleId := poleId;
       Alert.message :=
         "Pole #" +:+ poleId +:+ " - " +:+ IssueData.faultType issueData
                  +:+ " (Manual)";
       Alert.timestamp := Date_toISOString env;
       Alert.severity := IssueData.severity issueData;
       Alert.isExpanded := None;
       Alert.createdBy := Some manual |} in
  setAlerts (fun prev => newAlert :: prev) ;;
  toast (toast_success ("Issue added to pole " +:+ poleId)).

Definition handleFixIssue (poleId : string) : Handler unit :=
  setPoles (fun prev => imap (fun i pole =>
    if (PoleData.id pole =? poleId)%string then
      {| PoleData.id := PoleData.id pole;
         PoleData.lat := PoleData.lat pole;
         PoleData.lng := PoleData.lng pole;
         PoleData.status := healthy;
         PoleData.voltage :=
           Number.add (Number.of_Z 230)
                      (Number.mul (Math_random env i 0) (Number.of_Z 10));
         PoleData.current :=
           Number.add (Number.of_Z 15)
                      (Number.mul (Math_random env i 1) (Number.of_Z 5));
         PoleData.location := PoleData.location pole;
         PoleData.lastUpdated := Date_toISOString_in_map env i 0;
         PoleData.faultType := None;
         PoleData.severity := None;
         PoleData.isolatedBy := PoleData.isolatedBy pole;
         PoleData.isolatedAt := PoleData.isolatedAt pole |}
    else pole) prev) ;;
  setAlerts (fun prev => filter (fun alert => Alert.poleId alert <> poleId) prev) ;;
  toast (toast_success ("Issue fixed for pole " +:+ poleId)).

Definition handleIsolatePole (poleId : string) : Handler unit :=
  setPoles (fun prev => imap (fun i pole =>
    if (PoleData.id pole =? poleId)%string then
      {| PoleData.id := PoleData.id pole;
         PoleData.lat := PoleData.lat pole;
         PoleData.lng := PoleData.lng pole;
         PoleData.status := isolated;
         PoleData.voltage := Number.of_Z 0;
         PoleData.current := Number.of_Z 0;
         PoleData.location := PoleData.location pole;
         PoleData.lastUpdated := Date_toISOString_in_map env i 1;
         PoleData.faultType := PoleData.faultType pole;
         PoleData.severity := PoleData.severity pole;
         PoleData.isolatedBy := Some "Manual Control";
         PoleData.isolatedAt := Some (Date_toISOString_in_map env i 0) |}
    else pole) prev) ;;
  toast (toast_success ("Pole " +:+ poleId +:+ " isolated")).

Definition handleRestorePole (poleId : string) : Handler unit :=
  setPoles (fun prev => imap (fun i pole =>
    if (PoleData.id pole =? poleId)%string then
      {| PoleData.id := PoleData.id pole;
         PoleData.lat := PoleData.lat pole;
         PoleData.lng := PoleData.lng pole;
         PoleData.status := healthy;
         PoleData.voltage :=
           Number.add (Number.of_Z 230)
                      (Number.mul (Math_random env i 0) (Number.of_Z 10));
         PoleData.current :=
           Number.add (Number.of_Z 15)
                      (Number.mul (Math_random env i 1) (Number.of_Z 5));
         PoleData.location := PoleData.location pole;
         PoleData.lastUpdated := Date_toISOString_in_map env i 0;
         PoleData.faultType := None;
         PoleData.severity := None;
         PoleData.isolatedBy := None;
         PoleData.isolatedAt := None |}
    else pole) prev) ;;
  setAlerts (fun prev => filter (fun alert => Alert.poleId alert <> poleId) prev) ;;
  toast (toast_success ("Pole " +:+ poleId +:+ " restored")).

Definition handleDeleteAlert (alertId : string) : Handler unit :=
  setAlerts (fun prev => filter (fun alert => Alert.id alert <> alertId) prev) ;;
  toast (toast_success "Alert deleted").

Definition handleResetConfirm : Handler unit :=
  setAlerts (fun _ => []) ;;
  toast (toast_success "System reset complete").

(** [!alert.isExpanded]: an absent field is falsy. *)
Definition handleToggleAlertExpand (alertId : string) : Handler unit :=
  setAlerts (fun prev => (fun alert =>
    if (Alert.id alert =? alertId)%string then
      {| Alert.id := Alert.id alert;
         Alert.poleId := Alert.poleId alert;
         Alert.message := Alert.message alert;
         Alert.timestamp := Alert.timestamp alert;
         Alert.severity := Alert.severity alert;
         Alert.isExpanded := Some (negb (default false (Alert.isExpanded alert)));
         Alert.createdBy := Alert.createdBy alert |}
    else alert) <$> prev).

End Handlers.

(** ** What the control panel derives from the state (lines 376-377, 625-664) *)

Definition faultyPoles (ps : list PoleData.t) : list PoleData.t :=
  filter (fun pole => PoleData.status pole = faulty) ps.

Definition hasActiveFaults (ps : list PoleData.t) : bool :=
  bool_decide (0 < length (faultyPoles ps)).

(** The body of the "Active Alerts" section: one card per alert, or the
    green "All lines are healthy" box. *)
Inductive AlertList : Type :=
  | AlertCards (cards : list Alert.t)
  | AllLinesHealthy.

Record AlertsSection : Type := mkAlertsSection {
  badge : nat;
  body : AlertList
}.

Definition renderAlertsSection (s : State) : AlertsSection :=
  {| badge := length (alerts s);
     body := if hasActiveFaults (poles s)
             then AlertCards (alerts s)
             else AllLinesHealthy |}.

(** ** The state machine

    One constructor per handler that writes [poles] or [alerts]; a state is
    reachable when some sequence of handler calls, with any arguments and
    any readings, leads to it from the mock data. *)

Inductive Action : Type :=
  | AddIssue (poleId : string) (issueData : IssueData.t)
  | FixIssue (poleId : string)
  | IsolatePole (poleId : string)
  | RestorePole (poleId : string)
  | DeleteAlert (alertId : string)
  | ResetConfirm
  | ToggleAlertExpand (alertId : string).

Definition handler (env : Env) (a : Action) : Handler unit :=
  match a with
  | AddIssue poleId issueData => handleAddIssue env poleId issueData
  | FixIssue poleId => handleFixIssue env poleId
  | IsolatePole poleId => handleIsolatePole env poleId
  | RestorePole poleId => handleRestorePole env poleId
  | DeleteAlert alertId => handleDeleteAlert alertId
  | ResetConfirm => handleResetConfirm
  | ToggleAlertExpand alertId => handleToggleAlertExpand alertId
  end.

Definition step (env : Env) (a : Action) (s : State) : State :=
  exec (handler env a) s.

Inductive reachable : State -> Prop :=
  | reachable_init : reachable initialState
  | reachable_step env a s : reachable s -> reachable (step env a s).

(** A fixed environment for worked examples. *)
Definition sampleEnv : Env :=
  {| Date_now := 1705314600000;
     Date_toISOString := "2024-01-15T10:30:00.000Z";
     Date_toISOString_in_map := fun _ _ => "2024-01-15T10:30:00.000Z";
     Math_random := fun _ _ => Number.decimal 5 1 |}.

(** Notifications that report a failure. *)
Definition is_error (t : Toast) : bool :=
  match t with toast_error _ => true | _ => false end.

(** The pole id, or the alert id, that an action names. *)
Definition pole_target (a : Action) : option string :=
  match a with
  | AddIssue poleId _ | FixIssue poleId | IsolatePole poleId
  | RestorePole poleId => Some poleId
  | _ => None
  end.

Definition alert_target (a : Action) : option string :=
  match a with
  | DeleteAlert alertId | ToggleAlertExpand alertId => Some alertId
  | _ => None
  end.

(** The five operations the specification lists for the processor. *)
Definition control_operation (a : Action) : bool :=
  match a with
  | AddIssue _ _ | FixIssue _ | IsolatePole _ | RestorePole _ | ResetConfirm => true
  | DeleteAlert _ | ToggleAlertExpand _ => false
  end.

(** The registry holds a pole with the id the action names, if it names one. *)
Definition names_known_pole (a : Action) (s : State) : Prop :=
  forall poleId, pole_target a = Some poleId ->
    exists p, p ∈ poles s /\ PoleData.id p = poleId.

(** Some pole has another status in [s'] than in [s]; the alert log of [s']
    is not that of [s]. *)
Definition status_changed (s s' : State) : Prop :=
  exists i p p', poles s !! i = Some p /\ poles s' !! i = Some p'
    /\ PoleData.status p' <> PoleData.status p.

Definition alerts_changed (s s' : State) : Prop := alerts s' <> alerts s.

(** A pole that reports neither voltage nor current. *)
Definition de_energised (p : PoleData.t) : Prop :=
  PoleData.voltage p = Number.of_Z 0 /\ PoleData.current p = Number.of_Z 0.

(** ** Rounding

    [binary_round_aux] shifts a mantissa right until it fits, keeping a
    round bit and a sticky bit.  [shifted M k mrs] says that [mrs] is what
    [k] such shifts leave of [M]: the quotient by [2^k], with a bit set only
    if the division is not exact. *)

Abbreviation fexp64 := (fexp Number.prec Number.emax).

Definition shifted (M : Z) (k : Z) (mrs : shr_record) : Prop :=
  shr_m mrs = (M / 2 ^ k)%Z
  /\ (shr_r mrs || shr_s mrs = true -> (M mod 2 ^ k)%Z <> 0%Z).

(** The largest binary64 number below 1, [1 - 2^-53]; JavaScript prints it
    as [0.9999999999999999]. *)
Definition largest_draw : number := S754_finite false 9007199254740991 (-53).

(** The draw before it, [1 - 2^-52]: the largest one of a generator that
    produces multiples of [2^-52]. *)
Definition largest_draw_52 : number := S754_finite false 9007199254740990 (-53).

(** Readings in which every draw is [largest_draw]. *)
Definition largestDrawEnv : Env :=
  {| Date_now := 1705314600000;
     Date_toISOString := "2024-01-15T10:30:00.000Z";
     Date_toISOString_in_map := fun _ _ => "2024-01-15T10:30:00.000Z";
     Math_random := fun _ _ => largest_draw |}.

(** ** The rest of the control panel

    The remaining [useState] cells of [MapControlPanel] (lines 366-374),
    the handlers that write them, and what the dialogs offer. *)

(** Effects over any component state: the state is threaded and the
    [toast] calls are logged, as in [Handler]. *)
Definition Fx (S A : Type) : Type := S -> A * S * list Toast.

Global Instance Fx_ret S : MRet (Fx S) := fun A a s => (a, s, []).

Global Instance Fx_bind S : MBind (Fx S) := fun A B k h s =>
  let '(a, s1, ts1) := h s in
  let '(b, s2, ts2) := k a s1 in
  (b, s2, ts1 ++ ts2).

Definition fx_toast {S} (t : Toast) : Fx S unit := fun s => (tt, s, [t]).
Definition fx_get {S} : Fx S S := fun s => (s, s, []).
Definition fx_modify {S} (f : S -> S) : Fx S unit := fun s => (tt, f s, []).

Definition run {S A} (h : Fx S A) (s : S) : S := (h s).1.2.
Definition returned {S A} (h : Fx S A) (s : S) : A := (h s).1.1.
Definition logged {S A} (h : Fx S A) (s : S) : list Toast := (h s).2.

Record Panel : Type := mkPanel {
  panelState : State;
  selectedPole : option PoleData.t;
  showPolePopup : bool;
  showIsolationModal : bool;
  showResetModal : bool;
  showAddIssueModal : bool;
  showFixIssueModal : bool;
  showManualControlsModal : bool;
  isolationPoleId : option string;
  selectedPoleId : option string
}.

Definition initialPanel : Panel :=
  {| panelState := initialState;
     selectedPole := None;
     showPolePopup := false;
     showIsolationModal := false;
     showResetModal := false;
     showAddIssueModal := false;
     showFixIssueModal := false;
     showManualControlsModal := false;
     isolationPoleId := None;
     selectedPoleId := None |}.

(** A handler of [poles] and [alerts] run inside the panel. *)
Definition onState {A} (h : Handler A) : Fx Panel A := fun p =>
  let '(a, s, ts) := h (panelState p) in
  (a, mkPanel s (selectedPole p) (showPolePopup p) (showIsolationModal p)
        (showResetModal p) (showAddIssueModal p) (showFixIssueModal p)
        (showManualControlsModal p) (isolationPoleId p) (selectedPoleId p), ts).

Definition setSelectedPole (v : option PoleData.t) : Fx Panel unit :=
  fx_modify (fun p =>
    mkPanel (panelState p) v (showPolePopup p) (showIsolationModal p)
      (showResetModal p) (showAddIssueModal p) (showFixIssueModal p)
      (showManualControlsModal p) (isolationPoleId p) (selectedPoleId p)).

Definition setShowPolePopup (v : bool) : Fx Panel unit :=
  fx_modify (fun p =>
    mkPanel (panelState p) (selectedPole p) v (showIsolationModal p)
      (showResetModal p) (showAddIssueModal p) (showFixIssueModal p)
      (showManualControlsModal p) (isolationPoleId p) (selectedPoleId p)).

Definition setShowIsolationModal (v : bool) : Fx Panel unit :=
  fx_modify (fun p =>
    mkPanel (panelState p) (selectedPole p) (showPolePopup p) v
      (showResetModal p) (showAddIssueModal p) (showFixIssueModal p)
      (showManualControlsModal p) (isolationPoleId p) (selectedPoleId p)).

Definition setShowAddIssueModal (v : bool) : Fx Panel unit :=
  fx_modify (fun p =>
    mkPanel (panelState p) (selectedPole p) (showPolePopup p)
      (showIsolationModal p) (showResetModal p) v (showFixIssueModal p)
      (showManualControlsModal p) (isolationPoleId p) (selectedPoleId p)).

Definition setShowFixIssueModal (v : bool) : Fx Panel unit :=
  fx_modify (fun p =>
    mkPanel (panelState p) (selectedPole p) (showPolePopup p)
      (showIsolationModal p) (showResetModal p) (showAddIssueModal p) v
      (showManualControlsModal p) (isolationPoleId p) (selectedPoleId p)).

Definition setShowManualControlsModal (v : bool) : Fx Panel unit :=
  fx_modify (fun p =>
    mkPanel (panelState p) (selectedPole p) (showPolePopup p)
      (showIsolationModal p) (showResetModal p) (showAddIssueModal p)
      (showFixIssueModal p) v (isolationPoleId p) (selectedPoleId p)).

Definition setIsolationPoleId (v : option string) : Fx Panel unit :=
  fx_modify (fun p =>
    mkPanel (panelState p) (selectedPole p) (showPolePopup p)
      (showIsolationModal p) (showResetModal p) (showAddIssueModal p)
      (showFixIssueModal p) (showManualControlsModal p) v (selectedPoleId p)).

Definition setSelectedPoleId (v : option string) : Fx Panel unit :=
  fx_modify (fun p =>
    mkPanel (panelState p) (selectedPole p) (showPolePopup p)
      (showIsolationModal p) (showResetModal p) (showAddIssueModal p)
      (showFixIssueModal p) (showManualControlsModal p) (isolationPoleId p) v).

(** Lines 379-383. *)
Definition handleMarkerClick (pole : PoleData.t) : Fx Panel unit :=
  setSelectedPole (Some pole) ;;
  setShowPolePopup true ;;
  setSelectedPoleId (Some (PoleData.id pole)).

(** Lines 476-480. *)
Definition handleIsolateLine (poleId : string) : Fx Panel unit :=
  setIsolationPoleId (Some poleId) ;;
  setShowIsolationModal true ;;
  setShowPolePopup false.

(** Lines 482-485: the body is a comment and a notification. *)
Definition handleIsolationConfirm : Fx Panel unit :=
  fx_toast (toast_success "Isolation complete").

(** Lines 501-507, and the same body inline at lines 642-648:
    [poles.find(p => p.id === poleId)], then [if (pole)]. *)
Definition handleFocusPole (poleId : string) : Fx Panel unit :=
  p ← fx_get ;
  match List.find (fun p => (PoleData.id p =? poleId)%string)
                  (poles (panelState p)) with
  | Some _ =>
      setSelectedPoleId (Some poleId) ;;
      fx_toast (toast_info ("Focused on pole " +:+ poleId))
  | None => mret tt
  end.

(** Lines 509-514: [faultyPoles.length > 0] holds exactly when the list has
    a first element, [faultyPoles[0]]. *)
Definition handleRemoteIsolate : Fx Panel unit :=
  p ← fx_get ;
  match faultyPoles (poles (panelState p)) with
  | first :: _ =>
      setIsolationPoleId (Some (PoleData.id first)) ;;
      setShowIsolationModal true
  | [] => mret tt
  end.

(** The four tiles of the status summary (lines 595-620):
    [poles.filter(p => p.status === st).length]. *)
Definition statusCount (st : Status) (ps : list PoleData.t) : nat :=
  length (filter (fun p => PoleData.status p = st) ps).


(** The buttons of [PolePopup] (lines 1241-1292) and the callbacks the
    panel passes for them (lines 670-678).  The popup shows the pole it
    was given, [selectedPole]. *)
Inductive PopupButton : Type :=
  | ViewHistory (poleId : string)
  | PopupFixIssue (poleId : string)
  | PopupIsolateLine (poleId : string)
  | PopupRestoreLine (poleId : string)
  | PopupIsolateForMaintenance (poleId : string).

Definition PolePopup (pole : option PoleData.t) : list PopupButton :=
  match pole with
  | None => []
  | Some pole =>
      [ViewHistory (PoleData.id pole)]
      ++ (if decide (PoleData.status pole = faulty)
          then [PopupFixIssue (PoleData.id pole);
                PopupIsolateLine (PoleData.id pole)] else [])
      ++ (if decide (PoleData.status pole = isolated)
          then [PopupRestoreLine (PoleData.id pole)] else [])
      ++ (if decide (PoleData.status pole = healthy)
          then [PopupIsolateForMaintenance (PoleData.id pole)] else [])
  end.

(** The buttons of a row of [ManualControlsModal] (lines 1058-1119) and
    their callbacks (lines 694-705). *)
Inductive ManualButton : Type :=
  | ManualAddIssue (poleId : string)
  | ManualIsolate (poleId : string)
  | ManualFix (poleId : string)
  | ManualRestore (poleId : string)
  | ManualCompleteMaintenance (poleId : string).

Definition ManualControlsRow (pole : PoleData.t) : list ManualButton :=
  (if decide (PoleData.status pole = healthy)
   then [ManualAddIssue (PoleData.id pole); ManualIsolate (PoleData.id pole)]
   else [])
  ++ (if decide (PoleData.status pole = faulty)
      then [ManualFix (PoleData.id pole); ManualIsolate (PoleData.id pole)]
      else [])
  ++ (if decide (PoleData.status pole = isolated)
      then [ManualRestore (PoleData.id pole)] else [])
  ++ (if decide (PoleData.status pole = maintenance)
      then [ManualCompleteMaintenance (PoleData.id pole)] else []).

Section Clicks.
Variable env : Env.

Definition clickPopup (b : PopupButton) : Fx Panel unit :=
  match b with
  | ViewHistory poleId =>
      fx_toast (toast_info ("Opening history for pole " +:+ poleId))
  | PopupFixIssue poleId => onState (handleFixIssue env poleId)
  | PopupIsolateLine poleId => onState (handleIsolatePole env poleId)
  | PopupRestoreLine poleId => onState (handleRestorePole env poleId)
  | PopupIsolateForMaintenance poleId => onState (handleIsolatePole env poleId)
  end.

Definition clickManual (b : ManualButton) : Fx Panel unit :=
  match b with
  | ManualAddIssue _ =>
      setShowManualControlsModal false ;; setShowAddIssueModal true
  | ManualIsolate poleId => onState (handleIsolatePole env poleId)
  | ManualFix poleId => onState (handleFixIssue env poleId)
  | ManualRestore poleId => onState (handleRestorePole env poleId)
  | ManualCompleteMaintenance poleId => onState (handleRestorePole env poleId)
  end.

End Clicks.

(** [AddIssueModal] (lines 812-846): its form, the poles its select
    offers, and [handleSubmit], with [onClose] and [onAddIssue] as the
    panel passes them (lines 680-685). *)
Module AddIssueModal.

Record Form : Type := mkForm {
  selectedPoleId : string;
  faultType : string;
  severity : Severity;
  description : string
}.

Definition emptyForm : Form :=
  {| selectedPoleId := ""; faultType := ""; severity := medium;
     description := "" |}.

Definition options (ps : list PoleData.t) : list PoleData.t :=
  filter (fun p => PoleData.status p = healthy) ps.

Definition handleSubmit (env : Env) (form : Form) : Fx Panel Form :=
  if (selectedPoleId form =? "")%string || (faultType form =? "")%string then
    fx_toast (toast_error "Please fill in all required fields") ;;
    mret form
  else
    onState (handleAddIssue env (selectedPoleId form)
               {| IssueData.faultType := faultType form;
                  IssueData.severity := severity form;
                  IssueData.description := description form |}) ;;
    setShowAddIssueModal false ;;
    mret emptyForm.

End AddIssueModal.

(** [FixIssueModal] (lines 933-955), wired at lines 687-692. *)
Module FixIssueModal.

Definition options (ps : list PoleData.t) : list PoleData.t := faultyPoles ps.

Definition handleSubmit (env : Env) (selectedPoleId : string)
  : Fx Panel string :=
  if (selectedPoleId =? "")%string then
    fx_toast (toast_error "Please select a pole to fix") ;;
    mret selectedPoleId
  else
    onState (handleFixIssue env selectedPoleId) ;;
    setShowFixIssueModal false ;;
    mret "".

End FixIssueModal.

(** ** [Math.floor]

    On a finite number [±m * 2^e] the largest integer not above it is the
    mantissa shifted by [e] bits, rounding down; zeros, infinities and NaN
    are returned as they are. *)
Module Math.

Definition floor (x : number) : number :=
  match x with
  | S754_finite s m e => Number.of_Z (Z.shiftl (cond_Zopp s (Z.pos m)) e)
  | _ => x
  end.

End Math.

(** What [Math.random()] returns: a number of positive sign, at least 0 and
    below 1. *)
Definition random_value (r : number) : bool :=
  match r with
  | S754_zero true => false
  | _ => Number.unit_draw r
  end.

(** A second invariant of the right shifts of [binary_round_aux]: the round
    bit is set only if the part shifted out is at least half of [2^k]. *)
Definition half_bit (M : Z) (k : Z) (mrs : shr_record) : Prop :=
  shr_r mrs = true -> (2 ^ k <= 2 * (M mod 2 ^ k))%Z.

(** ** The analytics strip ([AnalyticsSection.tsx]) *)
Module AnalyticsSection.

(** Readings of [generateRiskData]: the draws of [Math.random()] in the
    order of evaluation, and the string [toLocaleTimeString] returns. *)
Record Readings : Type := mkReadings {
  Math_random : nat -> number;
  toLocaleTimeString : string
}.

Record Factor : Type := mkFactor {
  name : string;
  weight : number;
  status : string
}.

Record RiskData : Type := mkRiskData {
  score : number;
  confidence : number;
  lastUpdated : string;
  factors : list Factor;
  explanation : string
}.

(** Lines 55-65. *)
Definition generateRiskData (rd : Readings) : RiskData :=
  {| score := Math.floor (Number.mul (Math_random rd 0) (Number.of_Z 100));
     confidence :=
       Number.add (Number.of_Z 85)
         (Math.floor (Number.mul (Math_random rd 1) (Number.of_Z 15)));
     lastUpdated := toLocaleTimeString rd;
     factors :=
       [ {| name := "Rising Current Trend"; weight := Number.of_Z 35;
            status := "warning" |};
         {| name := "Transformer Temperature"; weight := Number.of_Z 28;
            status := "normal" |};
         {| name := "Weather Conditions"; weight := Number.of_Z 22;
            status := "caution" |} ];
     explanation :=
       "Current levels have increased 15% over the past 6 hours, indicating potential load stress. Recent weather patterns suggest increased demand." |}.

(** Lines 122-132 and the label at line 365. *)
Definition getRiskColor (score : number) : string :=
  if Number.ltb score (Number.of_Z 30) then "text-green-600"
  else if Number.ltb score (Number.of_Z 70) then "text-yellow-600"
  else "text-red-600".

Definition getRiskBgColor (score : number) : string :=
  if Number.ltb score (Number.of_Z 30) then "bg-green-100"
  else if Number.ltb score (Number.of_Z 70) then "bg-yellow-100"
  else "bg-red-100".

Definition riskLabel (score : number) : string :=
  if Number.ltb score (Number.of_Z 30) then "Low Risk"
  else if Number.ltb score (Number.of_Z 70) then "Medium Risk"
  else "High Risk".

(** Lines 106-115: the updater of [setSelectedSeries]; the new selection is
    also what [onSelectionChange] receives. *)
Definition handleSeriesToggle (series : string) (prev : list string)
  : list string :=
  if bool_decide (series ∈ prev)
  then filter (fun s => s <> series) prev
  else prev ++ [series].

End AnalyticsSection.

(** ** The mobile shell ([MobileFieldAppShell.tsx]) *)
Module MobileFieldAppShell.

Inductive DialogType : Set := isolate | reset.

Record ConfirmDialog : Type := mkConfirmDialog {
  type : option DialogType;
  alertId : option string
}.

(** The [useState] cells of lines 101-106. *)
Record Shell : Type := mkShell {
  drawerOpen : bool;
  activeTab : string;
  searchQuery : string;
  confirmDialog : ConfirmDialog;
  expandedAlert : option string;
  isOnline : bool
}.

Definition initialShell : Shell :=
  {| drawerOpen := false; activeTab := "live"; searchQuery := "";
     confirmDialog := {| type := None; alertId := None |};
     expandedAlert := None; isOnline := true |}.

Definition setConfirmDialog (v : ConfirmDialog) : Fx Shell unit :=
  fx_modify (fun s =>
    mkShell (drawerOpen s) (activeTab s) (searchQuery s) v
      (expandedAlert s) (isOnline s)).

Definition setIsOnline (v : bool) : Fx Shell unit :=
  fx_modify (fun s =>
    mkShell (drawerOpen s) (activeTab s) (searchQuery s) (confirmDialog s)
      (expandedAlert s) v).

(** The listeners of lines 109-110. *)
Definition handleOnline : Fx Shell unit := setIsOnline true.
Definition handleOffline : Fx Shell unit := setIsOnline false.

(** Lines 123-139. *)
Definition handleIsolate (alertId : option string) : Fx Shell unit :=
  setConfirmDialog {| type := None; alertId := None |} ;;
  s ← fx_get ;
  if negb (isOnline s) then
    fx_toast (toast_info "Action queued - will execute when online")
  else
    fx_toast (toast_success "Remote isolation initiated successfully").

Definition handleReset (alertId : option string) : Fx Shell unit :=
  setConfirmDialog {| type := None; alertId := None |} ;;
  s ← fx_get ;
  if negb (isOnline s) then
    fx_toast (toast_info "Action queued - will execute when online")
  else
    fx_toast (toast_success "System reset completed successfully").

(** The buttons of the confirmation dialog (lines 437-450). *)
Definition clickCancel : Fx Shell unit :=
  setConfirmDialog {| type := None; alertId := None |}.

Definition clickConfirm : Fx Shell unit :=
  s ← fx_get ;
  match type (confirmDialog s) with
  | Some isolate => handleIsolate (alertId (confirmDialog s))
  | _ => handleReset (alertId (confirmDialog s))
  end.

End MobileFieldAppShell.

(** ** Auxiliary notions for the properties *)

(** Readings with a later clock than [sampleEnv]. *)
Definition laterEnv : Env :=
  {| Date_now := 1705314600001;
     Date_toISOString := "2024-01-15T10:30:00.001Z";
     Date_toISOString_in_map := fun _ _ => "2024-01-15T10:30:00.001Z";
     Math_random := fun _ _ => Number.decimal 5 1 |}.

(** Whether the card of an alert shows its details: [alert.isExpanded &&],
    with an absent field falsy. *)
Definition expanded (a : Alert.t) : bool := default false (Alert.isExpanded a).

(** Where a pole stands: the fields no handler writes. *)
Definition placement (p : PoleData.t) : string * number * number * string :=
  (PoleData.id p, PoleData.lat p, PoleData.lng p, PoleData.location p).

(** A pole with its isolation marks removed. *)
Definition withoutIsolationMarks (p : PoleData.t) : PoleData.t :=
  {| PoleData.id := PoleData.id p;
     PoleData.lat := PoleData.lat p;
     PoleData.lng := PoleData.lng p;
     PoleData.status := PoleData.status p;
     PoleData.voltage := PoleData.voltage p;
     PoleData.current := PoleData.current p;
     PoleData.location := PoleData.location p;
     PoleData.lastUpdated := PoleData.lastUpdated p;
     PoleData.faultType := PoleData.faultType p;
     PoleData.severity := PoleData.severity p;
     PoleData.isolatedBy := None;
     PoleData.isolatedAt := None |}.

(** ** Properties *)

(** Running a handler symbolically: unfold the monad down to the two lists. *)
Ltac run_handler :=
  unfold step, handler, exec, emitted,
    handleAddIssue, handleFixIssue, handleIsolatePole, handleRestorePole,
    handleDeleteAlert, handleResetConfirm, handleToggleAlertExpand,
    mbind, Handler_bind, setPoles, setAlerts, toast in *;
  cbn [fst snd poles alerts app] in *.

Section HandlerFacts.
Context (env : Env).

Lemma length_poles_step a s : length (poles (step env a s)) = length (poles s).
Proof. destruct a; run_handler; rewrite ?length_imap; reflexivity. Qed.

End HandlerFacts.

(** A [map] whose callback returns every element as it is returns the list. *)
Lemma imap_unchanged {A} (f : nat -> A -> A) (l : list A) :
  (forall i x, l !! i = Some x -> f i x = x) -> imap f l = l.
Proof.
  intros Hf. apply list_eq. intros i. rewrite list_lookup_imap.
  destruct (l !! i) as [x|] eqn:Hx; cbn; [f_equal; auto | reflexivity].
Qed.

(** A [map] whose callback keeps a field keeps the list of that field. *)
Lemma fmap_imap_preserved {A B} (g : A -> B) (f : nat -> A -> A) (l : list A) :
  (forall i x, g (f i x) = g x) -> g <$> imap f l = g <$> l.
Proof.
  intros Hf. rewrite fmap_imap, <- (imap_const g).
  apply imap_ext. intros i x _. apply Hf.
Qed.

Lemma fmap_unchanged {A} (f : A -> A) (l : list A) :
  (forall x, x ∈ l -> f x = x) -> f <$> l = l.
Proof.
  intros Hf. induction l as [|x l IH]; cbn; [reflexivity|].
  rewrite Hf by left. f_equal. apply IH. intros y Hy. apply Hf. now right.
Qed.

Lemma filter_unchanged {A} (P : A -> Prop) `{!forall x, Decision (P x)} (l : list A) :
  (forall x, x ∈ l -> P x) -> filter P l = l.
Proof.
  intros HP. induction l as [|x l IH]; [reflexivity|].
  rewrite filter_cons_True by (apply HP; left).
  f_equal. apply IH. intros y Hy. apply HP. now right.
Qed.

Ltac case_id :=
  match goal with
  | |- context [String.eqb ?a ?b] => destruct (String.eqb_spec a b)
  end.

(** *** Binary64 arithmetic of the handlers *)

Section Binary64Facts.
Local Open Scope Z_scope.

(** Number of binary digits. *)
Lemma digits2_pos_bounds (m : positive) :
  2 ^ (Z.pos (digits2_pos m) - 1) <= Z.pos m < 2 ^ Z.pos (digits2_pos m).
Proof.
  induction m as [m IH|m IH|]; cbn [digits2_pos].
  - rewrite Pos2Z.inj_succ, Z.pow_succ_r by lia.
    replace (Z.succ (Z.pos (digits2_pos m)) - 1) with (Z.succ (Z.pos (digits2_pos m) - 1)) by lia.
    rewrite Z.pow_succ_r by lia. lia.
  - rewrite Pos2Z.inj_succ, Z.pow_succ_r by lia.
    replace (Z.succ (Z.pos (digits2_pos m)) - 1) with (Z.succ (Z.pos (digits2_pos m) - 1)) by lia.
    rewrite Z.pow_succ_r by lia. lia.
  - cbn. lia.
Qed.

Lemma digits2_pos_le (m : positive) (n : Z) :
  Z.pos m < 2 ^ n -> Z.pos (digits2_pos m) <= n.
Proof.
  intros Hm. destruct (digits2_pos_bounds m) as [Hlo _].
  destruct (Z.le_gt_cases (Z.pos (digits2_pos m)) n) as [|Hgt]; [assumption|].
  exfalso. assert (0 <= n \/ n < 0) as [Hn|Hn] by lia.
  - assert (2 ^ n <= 2 ^ (Z.pos (digits2_pos m) - 1)) by (apply Z.pow_le_mono_r; lia). lia.
  - rewrite Z.pow_neg_r in Hm by assumption. lia.
Qed.

Lemma digits2_pos_ge (m : positive) (n : Z) :
  2 ^ n <= Z.pos m -> n + 1 <= Z.pos (digits2_pos m).
Proof.
  intros Hm. destruct (digits2_pos_bounds m) as [_ Hhi].
  destruct (Z.le_gt_cases (n + 1) (Z.pos (digits2_pos m))) as [|Hgt]; [assumption|].
  exfalso.
  assert (2 ^ Z.pos (digits2_pos m) <= 2 ^ n) by (apply Z.pow_le_mono_r; lia). lia.
Qed.

(** Shifting right. *)
Lemma iter_pos_invariant {A} (f : A -> A) (P : Z -> A -> Prop) :
  (forall k x, 0 <= k -> P k x -> P (k + 1) (f x)) ->
  forall p k x, 0 <= k -> P k x -> P (k + Z.pos p) (SpecFloat.iter_pos f p x).
Proof.
  intros Hf. induction p as [p IH|p IH|]; intros k x Hk Hx; cbn [SpecFloat.iter_pos].
  - replace (k + Z.pos p~1) with (k + 1 + Z.pos p + Z.pos p) by lia.
    apply IH; [lia|]. apply IH; [lia|]. apply Hf; assumption.
  - replace (k + Z.pos p~0) with (k + Z.pos p + Z.pos p) by lia.
    apply IH; [lia|]. apply IH; assumption.
  - apply Hf; assumption.
Qed.

Lemma shr_1_nonneg (m : Z) (r s : bool) :
  0 <= m ->
  shr_1 (Build_shr_record m r s) = Build_shr_record (Z.div2 m) (Z.odd m) (r || s).
Proof. intros Hm. destruct m as [|[q|q|]|q]; try reflexivity. lia. Qed.

Lemma shr_1_shifted M k mrs :
  0 <= M -> 0 <= k -> shifted M k mrs -> shifted M (k + 1) (shr_1 mrs).
Proof.
  intros HM Hk [Hm Hrs].
  assert (Hpow : 2 ^ (k + 1) = 2 ^ k * 2) by (rewrite Z.pow_add_r by lia; reflexivity).
  assert (Hpos : 0 < 2 ^ k) by (apply Z.pow_pos_nonneg; lia).
  assert (Hq : 0 <= M / 2 ^ k) by (apply Z.div_pos; lia).
  destruct mrs as [m r s]. cbn [shr_m shr_r shr_s] in *. subst m.
  rewrite shr_1_nonneg by assumption. split; cbn [shr_m shr_r shr_s].
  - rewrite Z.div2_div, Hpow, Z.div_div by lia. reflexivity.
  - intros Hf. rewrite Hpow, Z.rem_mul_r, Zmod_odd by lia.
    assert (Hrem := Z.mod_pos_bound M (2 ^ k) Hpos).
    apply orb_true_iff in Hf as [Hodd|Hf]; [rewrite Hodd; lia|].
    specialize (Hrs Hf). destruct (Z.odd _); lia.
Qed.

Lemma shr_shifted (M e n : Z) :
  0 <= M ->
  let k := Z.max 0 n in
  exists mrs, shr (Build_shr_record M false false) e n = (mrs, e + k)
    /\ shifted M k mrs.
Proof.
  intros HM k. subst k. destruct n as [|p|p]; cbn [shr].
  - eexists. split; [f_equal; lia|]. split; cbn; [rewrite Z.div_1_r; reflexivity|].
    discriminate.
  - eexists. split; [f_equal; lia|].
    replace (Z.max 0 (Z.pos p)) with (0 + Z.pos p) by lia.
    apply (iter_pos_invariant shr_1 (shifted M)); [|lia|].
    + intros k x Hk. apply shr_1_shifted; assumption.
    + split; cbn; [rewrite Z.div_1_r; reflexivity|]. discriminate.
  - eexists. split; [f_equal; lia|]. split; cbn; [rewrite Z.div_1_r; reflexivity|].
    discriminate.
Qed.

(** Rounding to nearest after a shift stays between the grid points around
    the exact value. *)
Lemma round_nearest_even_between (M k lo hi : Z) (mrs : shr_record) :
  0 <= k -> shifted M k mrs ->
  lo * 2 ^ k <= M <= hi * 2 ^ k ->
  lo <= round_nearest_even (shr_m mrs) (loc_of_shr_record mrs) <= hi.
Proof.
  intros Hk [Hm Hrs] [Hlo Hhi].
  assert (Hpos : 0 < 2 ^ k) by (apply Z.pow_pos_nonneg; lia).
  assert (Hfloor : lo <= M / 2 ^ k) by (apply Z.div_le_lower_bound; lia).
  assert (Hdm := Z.div_mod M (2 ^ k) ltac:(lia)).
  assert (Hrem := Z.mod_pos_bound M (2 ^ k) Hpos).
  destruct mrs as [m r s]. cbn [shr_m shr_r shr_s] in *. subst m.
  assert (Hceil : r || s = true -> M / 2 ^ k + 1 <= hi).
  { intros Hrs'. specialize (Hrs Hrs'). nia. }
  assert (Hexact : M / 2 ^ k <= hi) by nia.
  destruct r, s; cbn [loc_of_shr_record round_nearest_even];
    try destruct (Z.even _); cbn in Hceil; lia.
Qed.

(** The two shifts and the rounding step of [binary_round_aux], for a
    positive exact mantissa. *)
Lemma binary_round_aux_exact (sx : bool) (M E : Z) :
  0 < M ->
  let e1 := Z.max E (fexp64 (Zdigits2 M + E)) in
  exists M1,
    (forall lo hi, lo * 2 ^ (e1 - E) <= M <= hi * 2 ^ (e1 - E) -> lo <= M1 <= hi)
    /\ let e2 := Z.max e1 (fexp64 (Zdigits2 M1 + e1)) in
       binary_round_aux Number.prec Number.emax sx M E loc_Exact
       = match M1 / 2 ^ (e2 - e1) with
         | Z0 => S754_zero sx
         | Z.pos m => if e2 <=? Number.emax - Number.prec
                      then S754_finite sx m e2 else S754_infinity sx
         | Z.neg _ => S754_nan
         end.
Proof.
  intros HM e1.
  unfold binary_round_aux, shr_fexp. cbn [shr_record_of_loc].
  destruct (shr_shifted M E (fexp64 (Zdigits2 M + E) - E) ltac:(lia))
    as (mrs1 & Hshr1 & Hsh1).
  rewrite Hshr1.
  replace (E + Z.max 0 (fexp64 (Zdigits2 M + E) - E)) with e1 by lia.
  replace (Z.max 0 (fexp64 (Zdigits2 M + E) - E)) with (e1 - E) in Hsh1 by lia.
  set (M1 := round_nearest_even (shr_m mrs1) (loc_of_shr_record mrs1)).
  assert (Hbetween : forall lo hi,
            lo * 2 ^ (e1 - E) <= M <= hi * 2 ^ (e1 - E) -> lo <= M1 <= hi).
  { intros lo hi. apply round_nearest_even_between; [lia | assumption]. }
  exists M1. split; [exact Hbetween|].
  assert (HM1 : 0 <= M1).
  { apply (Hbetween 0 M). split; [lia|].
    assert (0 < 2 ^ (e1 - E)) by (apply Z.pow_pos_nonneg; lia). nia. }
  destruct (shr_shifted M1 e1 (fexp64 (Zdigits2 M1 + e1) - e1) HM1)
    as (mrs2 & Hshr2 & [Hm2 _]).
  rewrite Hshr2, Hm2.
  replace (e1 + Z.max 0 (fexp64 (Zdigits2 M1 + e1) - e1))
    with (Z.max e1 (fexp64 (Zdigits2 M1 + e1))) by lia.
  replace (Z.max 0 (fexp64 (Zdigits2 M1 + e1) - e1))
    with (Z.max e1 (fexp64 (Zdigits2 M1 + e1)) - e1) by lia.
  reflexivity.
Qed.

Lemma fexp64_eq (e : Z) : fexp64 e = Z.max (e - 53) (-1074).
Proof. reflexivity. Qed.

Lemma pow2_split (a b : Z) : 0 <= a -> 0 <= b -> 2 ^ (a + b) = 2 ^ a * 2 ^ b.
Proof. intros. apply Z.pow_add_r; assumption. Qed.

(** Rounding a positive value that is at most [u * 2^gu], a binary64 number,
    gives zero or a positive number that is at most [u * 2^gu]. *)
Lemma binary_round_aux_upper (M E u gu : Z) :
  0 < M -> E <= gu -> -1074 <= gu <= 971 -> 0 < u < 2 ^ 53 ->
  M <= u * 2 ^ (gu - E) ->
  binary_round_aux Number.prec Number.emax false M E loc_Exact = S754_zero false
  \/ exists m e,
       binary_round_aux Number.prec Number.emax false M E loc_Exact
       = S754_finite false m e
       /\ e <= gu /\ Z.pos m <= u * 2 ^ (gu - e).
Proof.
  intros HM HE Hgu Hu Hle.
  destruct (binary_round_aux_exact false M E HM) as (M1 & Hbetween & Heq).
  cbv zeta in Hbetween, Heq.
  set (e1 := Z.max E (fexp64 (Zdigits2 M + E))) in *.
  assert (He1 : E <= e1 <= gu).
  { split; [lia|]. subst e1. rewrite fexp64_eq.
    destruct M as [|p|p]; try lia. cbn [Zdigits2].
    assert (Z.pos (digits2_pos p) <= 53 + (gu - E)); [|lia].
    apply digits2_pos_le. rewrite pow2_split by lia.
    assert (0 < 2 ^ (gu - E)) by (apply Z.pow_pos_nonneg; lia). nia. }
  assert (HM1 : 0 <= M1 <= u * 2 ^ (gu - e1)).
  { apply Hbetween. split; [lia|].
    rewrite <- Z.mul_assoc, <- pow2_split by lia.
    replace (gu - e1 + (e1 - E)) with (gu - E) by lia. assumption. }
  set (e2 := Z.max e1 (fexp64 (Zdigits2 M1 + e1))) in *.
  assert (He2 : e1 <= e2 <= gu).
  { split; [lia|]. subst e2. rewrite fexp64_eq.
    destruct M1 as [|p|p]; cbn [Zdigits2]; try lia.
    assert (Z.pos (digits2_pos p) <= 53 + (gu - e1)); [|lia].
    apply digits2_pos_le. rewrite pow2_split by lia.
    assert (0 < 2 ^ (gu - e1)) by (apply Z.pow_pos_nonneg; lia). nia. }
  assert (Hq : 0 <= M1 / 2 ^ (e2 - e1) <= u * 2 ^ (gu - e2)).
  { assert (0 < 2 ^ (e2 - e1)) by (apply Z.pow_pos_nonneg; lia).
    split; [apply Z.div_pos; lia|].
    apply Z.div_le_upper_bound; [assumption|].
    rewrite (Z.mul_comm (2 ^ (e2 - e1))), <- Z.mul_assoc, <- pow2_split by lia.
    replace (gu - e2 + (e2 - e1)) with (gu - e1) by lia. lia. }
  rewrite Heq. revert Hq.
  destruct (M1 / 2 ^ (e2 - e1)) as [|m|m]; intros Hq; [left; reflexivity| |lia].
  right. exists m, e2.
  replace (e2 <=? Number.emax - Number.prec) with true
    by (symmetry; apply Z.leb_le; unfold Number.emax, Number.prec; lia).
  split; [reflexivity|]. split; lia.
Qed.

(** Rounding a positive value that lies in one binade, between two numbers
    [lo * 2^g] and [hi * 2^g] of that binade, gives a number between them
    (or the next power of two, when [hi] is that power). *)
Lemma binary_round_binade (mx : positive) (E g lo hi : Z) :
  E <= g -> -1074 <= g <= 970 -> 2 ^ 52 <= lo -> hi <= 2 ^ 53 ->
  lo * 2 ^ (g - E) <= Z.pos mx <= hi * 2 ^ (g - E) ->
  Z.pos mx < 2 ^ 53 * 2 ^ (g - E) ->
  exists m e,
    binary_round Number.prec Number.emax false mx E = S754_finite false m e
    /\ ((e = g /\ lo <= Z.pos m <= hi /\ Z.pos m < 2 ^ 53)
        \/ (hi = 2 ^ 53 /\ Z.pos m = 2 ^ 52 /\ e = g + 1)).
Proof.
  intros HE Hg Hlo Hhi Hbounds Hlt.
  assert (Hpos : 0 < 2 ^ (g - E)) by (apply Z.pow_pos_nonneg; lia).
  assert (Hd : Z.pos (digits2_pos mx) = 53 + (g - E)).
  { apply Z.le_antisymm.
    - apply digits2_pos_le. rewrite pow2_split by lia. assumption.
    - replace (53 + (g - E)) with (52 + (g - E) + 1) by lia.
      apply digits2_pos_ge. rewrite pow2_split by lia. nia. }
  unfold binary_round.
  replace (fexp Number.prec Number.emax (Z.pos (digits2_pos mx) + E)) with g
    by (rewrite fexp64_eq; lia).
  assert (Halign : shl_align mx E g = (mx, E)).
  { unfold shl_align. destruct (g - E) eqn:Hge; try reflexivity. lia. }
  rewrite Halign.
  destruct (binary_round_aux_exact false (Z.pos mx) E ltac:(lia))
    as (M1 & Hbetween & Heq).
  cbv zeta in Hbetween, Heq. cbn [Zdigits2] in Hbetween, Heq.
  replace (Z.max E (fexp64 (Z.pos (digits2_pos mx) + E))) with g
    in Hbetween, Heq by (rewrite fexp64_eq; lia).
  specialize (Hbetween lo hi Hbounds).
  rewrite Heq. clear Heq.
  destruct M1 as [|m1|m1]; try lia. cbn [Zdigits2].
  assert (Z.pos m1 < 2 ^ 53 \/ Z.pos m1 = 2 ^ 53) as [Hnorm|Hcarry] by lia.
  - assert (Hd1 : Z.pos (digits2_pos m1) = 53).
    { apply Z.le_antisymm; [apply digits2_pos_le; assumption|].
      apply (digits2_pos_ge m1 52). lia. }
    rewrite Hd1.
    replace (Z.max g (fexp64 (53 + g))) with g by (rewrite fexp64_eq; lia).
    rewrite Z.sub_diag, Z.pow_0_r, Z.div_1_r.
    replace (g <=? Number.emax - Number.prec) with true
      by (symmetry; apply Z.leb_le; unfold Number.emax, Number.prec; lia).
    exists m1, g. split; [reflexivity|]. left. lia.
  - assert (Hd1 : Z.pos (digits2_pos m1) = 54).
    { apply Z.le_antisymm; [apply digits2_pos_le; rewrite Hcarry; reflexivity|].
      apply (digits2_pos_ge m1 53). lia. }
    rewrite Hd1.
    replace (Z.max g (fexp64 (54 + g))) with (g + 1) by (rewrite fexp64_eq; lia).
    replace (g + 1 - g) with 1 by lia. rewrite Hcarry.
    change (2 ^ 53 / 2 ^ 1) with (Z.pos (2 ^ 52)).
    replace (g + 1 <=? Number.emax - Number.prec) with true
      by (symmetry; apply Z.leb_le; unfold Number.emax, Number.prec; lia).
    exists (2 ^ 52)%positive, (g + 1). split; [reflexivity|]. right.
    split; [lia|]. split; reflexivity.
Qed.

(** Comparison of positive finite numbers. *)
Lemma leb_same_exponent (m1 m2 : positive) (e : Z) :
  Z.pos m1 <= Z.pos m2 ->
  Number.leb (S754_finite false m1 e) (S754_finite false m2 e) = true.
Proof.
  intros Hle. unfold Number.leb, SFleb, SFcompare. rewrite Z.compare_refl.
  change (Pos.compare_cont Eq m1 m2) with (Pos.compare m1 m2).
  destruct (Pos.compare_spec m1 m2); try reflexivity. lia.
Qed.

Lemma leb_smaller_exponent (m1 m2 : positive) (e1 e2 : Z) :
  e1 < e2 ->
  Number.leb (S754_finite false m1 e1) (S754_finite false m2 e2) = true.
Proof.
  intros Hlt. unfold Number.leb, SFleb, SFcompare.
  apply Z.compare_lt_iff in Hlt. rewrite Hlt. reflexivity.
Qed.

(** The literals of the handlers, in canonical form. *)
Lemma of_Z_0 : Number.of_Z 0 = S754_zero false.
Proof. reflexivity. Qed.
Lemma of_Z_1 : Number.of_Z 1 = S754_finite false 4503599627370496 (-52).
Proof. vm_compute. reflexivity. Qed.
Lemma of_Z_5 : Number.of_Z 5 = S754_finite false 5629499534213120 (-50).
Proof. vm_compute. reflexivity. Qed.
Lemma of_Z_10 : Number.of_Z 10 = S754_finite false 5629499534213120 (-49).
Proof. vm_compute. reflexivity. Qed.
Lemma of_Z_15 : Number.of_Z 15 = S754_finite false 8444249301319680 (-49).
Proof. vm_compute. reflexivity. Qed.
Lemma of_Z_20 : Number.of_Z 20 = S754_finite false 5629499534213120 (-48).
Proof. vm_compute. reflexivity. Qed.
Lemma of_Z_230 : Number.of_Z 230 = S754_finite false 8092405580431360 (-45).
Proof. vm_compute. reflexivity. Qed.
Lemma of_Z_240 : Number.of_Z 240 = S754_finite false 8444249301319680 (-45).
Proof. vm_compute. reflexivity. Qed.

(** The draws of [Math.random()]: zero, or [m * 2^e] with [m < 2^53] and
    [e <= -53]. *)
Lemma unit_draw_cases (r : number) :
  Number.unit_draw r = true ->
  (exists s, r = S754_zero s)
  \/ exists m e, r = S754_finite false m e /\ e <= -53 /\ Z.pos m < 2 ^ 53.
Proof.
  unfold Number.unit_draw. rewrite of_Z_1, of_Z_0. intros H.
  apply andb_true_iff in H as [H Hlt]. apply andb_true_iff in H as [Hvalid Hge].
  unfold Number.ltb, SFltb, SFcompare in Hlt.
  unfold Number.leb, SFleb, SFcompare in Hge.
  destruct r as [s|s| |s m e].
  - left. eauto.
  - destruct s; discriminate.
  - discriminate.
  - destruct s; [discriminate|]. right. exists m, e. split; [reflexivity|].
    cbn [valid_binary] in Hvalid. unfold bounded, canonical_mantissa in Hvalid.
    apply andb_true_iff in Hvalid as [Hcanon _]. apply Z.eqb_eq in Hcanon.
    rewrite fexp64_eq in Hcanon.
    destruct (digits2_pos_bounds m) as [Hlo Hhi].
    assert (Hd : Z.pos (digits2_pos m) <= 53) by lia.
    assert (Hm : Z.pos m < 2 ^ 53).
    { eapply Z.lt_le_trans; [exact Hhi|]. apply Z.pow_le_mono_r; lia. }
    split; [|exact Hm].
    destruct (Z.compare_spec e (-52)) as [Heq|Hlt'|Hgt]; [|lia|discriminate].
    exfalso. subst e.
    assert (Hd53 : Z.pos (digits2_pos m) = 53) by lia.
    rewrite Hd53 in Hlo.
    rewrite Pos.compare_cont_spec in Hlt. cbn [Pos.switch_Eq] in Hlt.
    destruct (Pos.compare_spec m 4503599627370496) as [Hc|Hc|Hc]; try discriminate.
    apply Pos2Z.pos_lt_pos in Hc. change (2 ^ (53 - 1)) with 4503599627370496 in Hlo.
    clear - Hc Hlo. lia.
Qed.

Lemma iter_xO_pow (a d : positive) :
  Z.pos (Pos.iter xO a d) = Z.pos a * 2 ^ Z.pos d.
Proof.
  induction d as [|d IH] using Pos.peano_ind.
  - cbn. lia.
  - rewrite Pos.iter_succ, Pos2Z.inj_xO, IH, Pos2Z.inj_succ, Z.pow_succ_r by lia. lia.
Qed.

Lemma shl_align_down (mx : positive) (ex ez : Z) :
  ez <= ex ->
  exists mz, shl_align mx ex ez = (mz, ez) /\ Z.pos mz = Z.pos mx * 2 ^ (ex - ez).
Proof.
  intros Hle. unfold shl_align. destruct (ez - ex) as [|d|d] eqn:Hd; try lia.
  - assert (ez = ex) as -> by lia. exists mx. split; [reflexivity|].
    rewrite Z.sub_diag. lia.
  - exists (Pos.iter xO mx d). split; [reflexivity|].
    rewrite iter_xO_pow. f_equal. f_equal. lia.
Qed.

(** A product [r * K] of a draw and a positive constant [K = c * 2^ec] is
    zero, or positive and at most [K]. *)
Lemma mul_draw_upper (r : number) (c : positive) (ec : Z) :
  Number.unit_draw r = true ->
  Z.pos c < 2 ^ 53 -> -1074 <= ec <= 971 ->
  (exists s, Number.mul r (S754_finite false c ec) = S754_zero s)
  \/ exists m e,
       Number.mul r (S754_finite false c ec) = S754_finite false m e
       /\ e <= ec /\ Z.pos m <= Z.pos c * 2 ^ (ec - e).
Proof.
  intros Hr Hc Hec.
  destruct (unit_draw_cases r Hr) as [[s ->]|(m & e & -> & He & Hm)].
  - left. eexists. reflexivity.
  - unfold Number.mul, SFmul. cbn [xorb].
    destruct (binary_round_aux_upper (Z.pos (m * c)) (e + ec) (Z.pos c) ec)
      as [Hz|Hfin]; try lia.
    + replace (ec - (e + ec)) with (- e) by lia.
      assert (2 ^ 53 <= 2 ^ (- e)) by (apply Z.pow_le_mono_r; lia).
      rewrite Pos2Z.inj_mul. nia.
    + left. eexists. exact Hz.
    + right. exact Hfin.
Qed.

(** A sum of a positive constant and a smaller positive number, when the
    exact sum lies in one binade. *)
Lemma add_binade (a my : positive) (ea ey g lo hi : Z) :
  ey <= ea -> ea <= g -> -1074 <= g <= 970 -> 2 ^ 52 <= lo -> hi <= 2 ^ 53 ->
  lo * 2 ^ (g - ey) <= Z.pos a * 2 ^ (ea - ey) + Z.pos my <= hi * 2 ^ (g - ey) ->
  Z.pos a * 2 ^ (ea - ey) + Z.pos my < 2 ^ 53 * 2 ^ (g - ey) ->
  exists m e,
    Number.add (S754_finite false a ea) (S754_finite false my ey)
    = S754_finite false m e
    /\ ((e = g /\ lo <= Z.pos m <= hi /\ Z.pos m < 2 ^ 53)
        \/ (hi = 2 ^ 53 /\ Z.pos m = 2 ^ 52 /\ e = g + 1)).
Proof.
  intros Hey Hea Hg Hlo Hhi Hbounds Hlt.
  unfold Number.add, SFadd. cbn [cond_Zopp].
  replace (Z.min ea ey) with ey by lia.
  destruct (shl_align_down a ea ey Hey) as (az & -> & Haz).
  destruct (shl_align_down my ey ey ltac:(lia)) as (mz & -> & Hmz).
  rewrite Z.sub_diag in Hmz. cbn [fst]. cbn [Z.add binary_normalize].
  apply binary_round_binade; try assumption; try lia;
    rewrite Pos2Z.inj_add, Haz, Hmz; lia.
Qed.

Lemma add_zero_r (a : positive) (ea : Z) (s : bool) :
  Number.add (S754_finite false a ea) (S754_zero s) = S754_finite false a ea.
Proof. reflexivity. Qed.

(** [230 + Math.random() * 10] lies between 230 and 240, both included. *)
Lemma voltage_draw_range (r : number) :
  Number.unit_draw r = true ->
  let v := Number.add (Number.of_Z 230) (Number.mul r (Number.of_Z 10)) in
  Number.leb (Number.of_Z 230) v = true /\ Number.leb v (Number.of_Z 240) = true.
Proof.
  intros Hr. cbv zeta. rewrite of_Z_230, of_Z_10, of_Z_240.
  destruct (mul_draw_upper r 5629499534213120 (-49) Hr)
    as [[s ->]|(m & e & -> & He & Hm)]; try lia.
  - rewrite add_zero_r. split; apply leb_same_exponent; lia.
  - assert (Hpos : 0 < 2 ^ (-49 - e)) by (apply Z.pow_pos_nonneg; lia).
    assert (Hsplit : 2 ^ (-45 - e) = 16 * 2 ^ (-49 - e)).
    { replace (-45 - e) with (4 + (-49 - e)) by lia. rewrite pow2_split by lia.
      reflexivity. }
    destruct (add_binade 8092405580431360 m (-45) e (-45)
                8092405580431360 8444249301319680)
      as (m' & e' & -> & [(-> & Hm' & _)|(Hhi & _)]); try lia.
    split; apply leb_same_exponent; lia.
Qed.

(** [15 + Math.random() * 5] lies between 15 and 20, both included. *)
Lemma current_draw_range (r : number) :
  Number.unit_draw r = true ->
  let c := Number.add (Number.of_Z 15) (Number.mul r (Number.of_Z 5)) in
  Number.leb (Number.of_Z 15) c = true /\ Number.leb c (Number.of_Z 20) = true.
Proof.
  intros Hr. cbv zeta. rewrite of_Z_15, of_Z_5, of_Z_20.
  destruct (mul_draw_upper r 5629499534213120 (-50) Hr)
    as [[s ->]|(m & e & -> & He & Hm)]; try lia.
  - rewrite add_zero_r.
    split; [apply leb_same_exponent | apply leb_smaller_exponent]; lia.
  - assert (Hpos : 0 < 2 ^ (-50 - e)) by (apply Z.pow_pos_nonneg; lia).
    assert (Hsplit1 : 2 ^ (-49 - e) = 2 * 2 ^ (-50 - e)).
    { replace (-49 - e) with (1 + (-50 - e)) by lia. rewrite pow2_split by lia.
      reflexivity. }
    assert (Hsplit2 : 2 ^ (-48 - e) = 4 * 2 ^ (-50 - e)).
    { replace (-48 - e) with (2 + (-50 - e)) by lia. rewrite pow2_split by lia.
      reflexivity. }
    destruct (Z.lt_ge_cases (8444249301319680 * 2 ^ (-49 - e) + Z.pos m)
                            (2 ^ 53 * 2 ^ (-49 - e))) as [Hlow|Hhigh].
    + destruct (add_binade 8444249301319680 m (-49) e (-49)
                  8444249301319680 (2 ^ 53))
        as (m' & e' & -> & [(-> & Hm' & _)|(_ & Hm' & ->)]); try lia.
      * split; [apply leb_same_exponent | apply leb_smaller_exponent]; lia.
      * split; [apply leb_smaller_exponent | apply leb_same_exponent]; lia.
    + destruct (add_binade 8444249301319680 m (-49) e (-48)
                  (2 ^ 52) 5629499534213120)
        as (m' & e' & -> & [(-> & Hm' & _)|(Hhi & _)]); try lia.
      split; [apply leb_smaller_exponent | apply leb_same_exponent]; lia.
Qed.

End Binary64Facts.

Example sample_fix :
  PoleData.status <$> poles (step sampleEnv (FixIssue "P001") initialState)
  = [healthy; healthy; isolated; healthy; maintenance].
Proof. reflexivity. Qed.

Example sample_add :
  Alert.id <$> alerts (step sampleEnv
                         (AddIssue "P002" (IssueData.mk "Line Break" low ""))
                         initialState)
  = ["A1705314600000"; "A001"; "A002"].
Proof. vm_compute. reflexivity. Qed.

(** *** Isolation *)

(** C1. For every pole [p] of the registry, [handleIsolatePole (id p)]
    leaves at the position of [p] a pole with status [isolated], voltage 0,
    current 0, [isolatedBy = "Manual Control"] and [isolatedAt] set; every
    pole with another id is unchanged (and so are the number of poles and
    the alert log). *)
Theorem C1_isolate_sets_pole env (s : State) (i : nat) (p : PoleData.t) :
  poles s !! i = Some p ->
  let s' := exec (handleIsolatePole env (PoleData.id p)) s in
  (exists p', poles s' !! i = Some p'
     /\ PoleData.status p' = isolated
     /\ PoleData.voltage p' = Number.of_Z 0
     /\ PoleData.current p' = Number.of_Z 0
     /\ PoleData.isolatedBy p' = Some "Manual Control"
     /\ is_Some (PoleData.isolatedAt p')
     /\ PoleData.id p' = PoleData.id p)
  /\ (forall j q, poles s !! j = Some q ->
                 PoleData.id q <> PoleData.id p -> poles s' !! j = Some q)
  /\ length (poles s') = length (poles s)
  /\ alerts s' = alerts s.
Proof.
  intros Hp s'. subst s'. run_handler. repeat split.
  - rewrite list_lookup_imap, Hp. cbn. rewrite String.eqb_refl.
    eexists. split; [reflexivity|]. cbn. repeat split; eauto.
  - intros j q Hq Hne. rewrite list_lookup_imap, Hq. cbn.
    case_id; [contradiction | reflexivity].
  - apply length_imap.
Qed.

Lemma C1_isolate_sets_pole_witness :
  exists p, poles initialState !! 1%nat = Some p
    /\ exists p', poles (exec (handleIsolatePole sampleEnv (PoleData.id p))
                              initialState) !! 1%nat = Some p'
         /\ PoleData.status p' = isolated.
Proof.
  eexists. split; [reflexivity|].
  destruct (C1_isolate_sets_pole sampleEnv initialState 1 _ eq_refl)
    as [(p' & Hp' & Hst & _) _].
  exists p'. split; assumption.
Defined.

(** *** Alerts removed and added *)

(** C4. [handleFixIssue poleId] and [handleRestorePole poleId] each keep,
    in their order, exactly the alerts whose [poleId] differs from the
    argument, and [handleDeleteAlert alertId] keeps exactly the alerts
    whose [id] differs from [alertId]. *)
Theorem C4_alerts_deleted env (s : State) (poleId alertId : string) :
  let kept (s' : State) (removed : Alert.t -> Prop) :=
    (forall a, a ∈ alerts s' <-> a ∈ alerts s /\ ~ removed a)
    /\ alerts s' `sublist_of` alerts s in
  kept (exec (handleFixIssue env poleId) s) (fun a => Alert.poleId a = poleId)
  /\ kept (exec (handleRestorePole env poleId) s) (fun a => Alert.poleId a = poleId)
  /\ kept (exec (handleDeleteAlert alertId) s) (fun a => Alert.id a = alertId).
Proof.
  cbv zeta. run_handler.
  split; [|split];
    (split; [intros a; rewrite list_elem_of_filter; tauto | apply sublist_filter]).
Qed.

(** C5. [handleAddIssue poleId data] puts one new alert in front of the
    alert log, with that [poleId], the severity of [data] and
    [createdBy = "manual"], the former alerts following unchanged; every
    pole with that id becomes [faulty] with the fault type and severity of
    [data]. *)
Theorem C5_add_issue env (s : State) (poleId : string) (data : IssueData.t) :
  let s' := exec (handleAddIssue env poleId data) s in
  (exists a, alerts s' = a :: alerts s
     /\ Alert.poleId a = poleId
     /\ Alert.severity a = IssueData.severity data
     /\ Alert.createdBy a = Some manual)
  /\ (forall i p, poles s !! i = Some p -> PoleData.id p = poleId ->
        exists p', poles s' !! i = Some p'
          /\ PoleData.status p' = faulty
          /\ PoleData.faultType p' = Some (IssueData.faultType data)
          /\ PoleData.severity p' = Some (IssueData.severity data)
          /\ PoleData.id p' = poleId).
Proof.
  cbv zeta. run_handler. split.
  - eexists. split; [reflexivity|]. cbn. auto.
  - intros i p Hp Hid. rewrite list_lookup_imap, Hp. cbn.
    apply String.eqb_eq in Hid as Heq. rewrite Heq.
    eexists. split; [reflexivity|]. cbn. auto.
Qed.

Lemma C5_add_issue_witness :
  exists p', poles (exec (handleAddIssue sampleEnv "P002"
                            (IssueData.mk "Line Break" low "")) initialState)
               !! 1%nat = Some p'
    /\ PoleData.status p' = faulty.
Proof.
  destruct (C5_add_issue sampleEnv initialState "P002"
              (IssueData.mk "Line Break" low "")) as [_ H].
  destruct (H 1%nat _ eq_refl eq_refl) as (p' & Hp' & Hst & _).
  exists p'. split; assumption.
Defined.

(** C8. When no pole of the registry has the id given to [handleAddIssue],
    the registry is returned as it was, and an alert carrying that id is
    still put in front of the alert log. *)
Theorem C8_add_issue_unknown_pole env (s : State) (poleId : string)
    (data : IssueData.t) :
  (forall p, p ∈ poles s -> PoleData.id p <> poleId) ->
  let s' := exec (handleAddIssue env poleId data) s in
  poles s' = poles s
  /\ exists a, alerts s' = a :: alerts s /\ Alert.poleId a = poleId
       /\ forall p, p ∈ poles s' -> PoleData.id p <> Alert.poleId a.
Proof.
  intros Habs. cbv zeta. run_handler.
  assert (Hsame : forall i x, poles s !! i = Some x ->
            (if (PoleData.id x =? poleId)%string
             then PoleData.mk (PoleData.id x) (PoleData.lat x) (PoleData.lng x)
                    faulty (PoleData.voltage x) (PoleData.current x)
                    (PoleData.location x) (Date_toISOString_in_map env i 0)
                    (Some (IssueData.faultType data))
                    (Some (IssueData.severity data))
                    (PoleData.isolatedBy x) (PoleData.isolatedAt x)
             else x) = x).
  { intros i x Hx. apply list_elem_of_lookup_2 in Hx.
    case_id; [exfalso; eapply Habs; eauto | reflexivity]. }
  rewrite (imap_unchanged _ _ Hsame). split; [reflexivity|].
  eexists. split; [reflexivity|]. cbn. auto.
Qed.

Lemma C8_add_issue_unknown_pole_witness :
  poles (exec (handleAddIssue sampleEnv "P999"
                 (IssueData.mk "Other" medium "")) initialState)
  = poles initialState.
Proof.
  apply (C8_add_issue_unknown_pole sampleEnv initialState "P999").
  intros p Hp. cbn in Hp.
  repeat (apply elem_of_cons in Hp as [->|Hp]; [discriminate|]).
  inversion Hp.
Defined.

(** *** The registry keeps its poles *)

(** C9. No handler adds or removes a pole: the list of pole ids is the same
    after every action, so every reachable registry holds exactly the mock
    poles P001 to P005. *)
Theorem C9_pole_ids_preserved :
  (forall env a s,
     PoleData.id <$> poles (step env a s) = PoleData.id <$> poles s)
  /\ (forall s, reachable s ->
        PoleData.id <$> poles s = ["P001"; "P002"; "P003"; "P004"; "P005"]).
Proof.
  assert (Hstep : forall env a s,
            PoleData.id <$> poles (step env a s) = PoleData.id <$> poles s).
  { intros env a s. destruct a; run_handler; try reflexivity;
      apply fmap_imap_preserved; intros i x; case_id; reflexivity. }
  split; [exact Hstep|].
  induction 1 as [|env a s _ IH]; [reflexivity|].
  rewrite Hstep. exact IH.
Qed.

Lemma C9_pole_ids_preserved_witness :
  PoleData.id <$> poles (step sampleEnv (RestorePole "P003")
                           (step sampleEnv (IsolatePole "P002") initialState))
  = ["P001"; "P002"; "P003"; "P004"; "P005"].
Proof.
  apply (proj2 C9_pole_ids_preserved).
  apply reachable_step, reachable_step, reachable_init.
Defined.

(** *** No failure *)

(** C7. Every handler is defined on every state and every argument: it
    returns a successor state with as many poles as before and emits no
    error notification.  An id that names no pole leaves the registry as it
    was, and an id that names no alert leaves the alert log as it was. *)
Theorem C7_handlers_total env (a : Action) (s : State) :
  exists s' ts,
    handler env a s = (tt, s', ts)
    /\ existsb is_error ts = false
    /\ length (poles s') = length (poles s)
    /\ (forall poleId, pole_target a = Some poleId ->
          (forall p, p ∈ poles s -> PoleData.id p <> poleId) ->
          poles s' = poles s)
    /\ (forall alertId, alert_target a = Some alertId ->
          (forall x, x ∈ alerts s -> Alert.id x <> alertId) ->
          alerts s' = alerts s).
Proof.
  assert (Hno : forall (f : nat -> PoleData.t -> PoleData.t) poleId,
            (forall p, p ∈ poles s -> PoleData.id p <> poleId) ->
            (forall i x, (PoleData.id x =? poleId)%string = false -> f i x = x) ->
            imap f (poles s) = poles s).
  { intros f poleId Habs Hf. apply imap_unchanged. intros i x Hx.
    apply Hf. apply String.eqb_neq. apply Habs.
    eapply list_elem_of_lookup_2; eauto. }
  destruct a; run_handler; do 2 eexists; (split; [reflexivity|]);
    cbn [poles alerts];
    (split; [reflexivity|]); (split; [rewrite ?length_imap; reflexivity|]);
    (split; [intros id0 [= <-] Habs | intros id0 [= <-] Habs]);
    try reflexivity.
  1-4: apply (Hno _ _ Habs); intros i x Hx; rewrite Hx; reflexivity.
  - apply filter_unchanged. exact Habs.
  - apply fmap_unchanged. intros x Hx. case_id; [|reflexivity].
    exfalso. eapply Habs; eauto.
Qed.

Lemma C7_handlers_total_witness :
  poles (step sampleEnv (IsolatePole "P999") initialState) = poles initialState.
Proof.
  destruct (C7_handlers_total sampleEnv (IsolatePole "P999") initialState)
    as (s' & ts & Hrun & _ & _ & Hpoles & _).
  unfold step, exec. rewrite Hrun. cbn [fst snd].
  apply (Hpoles "P999" eq_refl).
  intros p Hp. cbn in Hp.
  repeat (apply elem_of_cons in Hp as [->|Hp]; [discriminate|]).
  inversion Hp.
Defined.

(** *** What each operation writes *)

(** C2, as the specification states it, fails: isolating the faulty pole
    P001 of the mock data is one of the five operations and names a pole of
    the registry, yet it returns the alert log as it was. *)
Lemma C2_counterexample :
  let a := IsolatePole "P001" in
  let s' := step sampleEnv a initialState in
  control_operation a = true
  /\ names_known_pole a initialState
  /\ ~ (status_changed initialState s' /\ alerts_changed initialState s').
Proof.
  cbv zeta. split; [reflexivity|]. split.
  - intros poleId [= <-]. eexists. split; [left|reflexivity].
  - intros [_ Hal]. apply Hal. reflexivity.
Qed.

(** C2, amended.  [handleIsolatePole] sets the status of the named pole to
    [isolated] and returns the alert log as it was; [handleRestorePole] and
    [handleFixIssue] set it to [healthy] and drop the alerts of that pole;
    [handleAddIssue] sets it to [faulty] and puts one alert in front of the
    log; [handleResetConfirm] empties the alert log and returns the
    registry as it was. *)
Theorem C2_effects_of_operations env (s : State) (poleId : string)
    (data : IssueData.t) :
  let sets_status (s' : State) (st : Status) :=
    forall i p, poles s !! i = Some p -> PoleData.id p = poleId ->
      exists p', poles s' !! i = Some p' /\ PoleData.status p' = st in
  (sets_status (step env (IsolatePole poleId) s) isolated
   /\ alerts (step env (IsolatePole poleId) s) = alerts s)
  /\ (sets_status (step env (RestorePole poleId) s) healthy
      /\ alerts (step env (RestorePole poleId) s)
         = filter (fun a => Alert.poleId a <> poleId) (alerts s))
  /\ (sets_status (step env (FixIssue poleId) s) healthy
      /\ alerts (step env (FixIssue poleId) s)
         = filter (fun a => Alert.poleId a <> poleId) (alerts s))
  /\ (sets_status (step env (AddIssue poleId data) s) faulty
      /\ exists a, alerts (step env (AddIssue poleId data) s) = a :: alerts s)
  /\ (poles (step env ResetConfirm s) = poles s
      /\ alerts (step env ResetConfirm s) = []).
Proof.
  cbv zeta. run_handler.
  repeat match goal with |- _ /\ _ => split end;
    try reflexivity; try (eexists; reflexivity);
    intros i p Hp Hid; apply String.eqb_eq in Hid;
    rewrite list_lookup_imap, Hp; cbn; rewrite Hid;
    eexists; (split; [reflexivity|]); reflexivity.
Qed.

Lemma C2_effects_of_operations_witness :
  exists p', poles (step sampleEnv (RestorePole "P003") initialState) !! 2%nat
             = Some p'
    /\ PoleData.status p' = healthy.
Proof.
  destruct (C2_effects_of_operations sampleEnv initialState "P003"
              (IssueData.mk "Other" low "")) as (_ & [H _] & _).
  exact (H 2%nat _ eq_refl eq_refl).
Defined.

(** *** Poles without voltage *)

(** C3, as the specification states it, fails in the mock data: P005 is in
    [maintenance] and reports 220 V and 10 A. *)
Lemma C3_counterexample :
  reachable initialState
  /\ exists p, p ∈ poles initialState
       /\ PoleData.id p = "P005"
       /\ PoleData.status p = maintenance
       /\ PoleData.voltage p = Number.of_Z 220
       /\ PoleData.current p = Number.of_Z 10
       /\ ~ de_energised p.
Proof.
  split; [constructor|].
  eexists. split; [do 4 right; left|].
  repeat split. intros [Hv _]. discriminate Hv.
Qed.

(** C3, amended.  In every reachable state, every pole whose status is
    [isolated] has voltage 0 and current 0. *)
Theorem C3_isolated_poles_de_energised (s : State) :
  reachable s ->
  forall p, p ∈ poles s -> PoleData.status p = isolated -> de_energised p.
Proof.
  induction 1 as [|env a s _ IH]; intros p Hp Hst.
  - cbn in Hp.
    repeat (apply elem_of_cons in Hp as [->|Hp];
            [first [discriminate Hst | split; reflexivity]|]).
    inversion Hp.
  - destruct a; run_handler; try (apply IH; assumption);
      apply elem_of_lookup_imap in Hp as (i & x & -> & Hx);
      apply list_elem_of_lookup_2 in Hx;
      revert Hst; case_id; cbn; intros Hst;
      first [discriminate Hst | split; reflexivity | apply IH; assumption].
Qed.

Lemma C3_isolated_poles_de_energised_witness :
  exists p, poles (step sampleEnv (IsolatePole "P001") initialState) !! 0%nat
            = Some p
    /\ PoleData.status p = isolated /\ de_energised p.
Proof.
  eexists. split; [reflexivity|]. split; [reflexivity|].
  apply (C3_isolated_poles_de_energised
           (step sampleEnv (IsolatePole "P001") initialState)).
  - apply reachable_step, reachable_init.
  - left.
  - reflexivity.
Defined.

(** *** Alerts that outlive the faults *)

(** C10. Fixing P001 in the mock data leaves alert A002 in the log and no
    faulty pole, so a reachable state has alerts and no faulty pole; in
    every state of that kind the alert section shows the "All lines are
    healthy" box in place of the alerts, while its badge shows the number
    of alerts, which is not zero. *)
Theorem C10_alerts_hidden_without_faults :
  (forall env,
     let s := step env (FixIssue "P001") initialState in
     reachable s
     /\ Alert.id <$> alerts s = ["A002"]
     /\ forall p, p ∈ poles s -> PoleData.status p <> faulty)
  /\ (forall s,
        alerts s <> [] ->
        (forall p, p ∈ poles s -> PoleData.status p <> faulty) ->
        body (renderAlertsSection s) = AllLinesHealthy
        /\ badge (renderAlertsSection s) = length (alerts s)
        /\ 0 < badge (renderAlertsSection s)).
Proof.
  split.
  - intros env s. subst s. split; [apply reachable_step, reachable_init|].
    split; [reflexivity|].
    intros p Hp. run_handler. cbn in Hp.
    repeat (apply elem_of_cons in Hp as [->|Hp]; [discriminate|]).
    inversion Hp.
  - intros s Hne Hnf. unfold renderAlertsSection, hasActiveFaults. cbn.
    assert (Hfp : faultyPoles (poles s) = []).
    { unfold faultyPoles. destruct (filter _ _) as [|q l] eqn:Hq; [reflexivity|].
      assert (Hin : q ∈ filter (fun pole => PoleData.status pole = faulty) (poles s))
        by (rewrite Hq; left).
      apply list_elem_of_filter in Hin as [Hst Hin].
      exfalso. eapply Hnf; eauto. }
    rewrite Hfp. cbn. split; [reflexivity|]. split; [reflexivity|].
    destruct (alerts s); [contradiction | cbn; lia].
Qed.

Lemma C10_alerts_hidden_without_faults_witness :
  renderAlertsSection (step sampleEnv (FixIssue "P001") initialState)
  = {| badge := 1;
       body := AllLinesHealthy |}.
Proof.
  destruct C10_alerts_hidden_without_faults as [Hex Hall].
  destruct (Hex sampleEnv) as (_ & Hal & Hnf).
  destruct (Hall (step sampleEnv (FixIssue "P001") initialState))
    as (Hbody & Hbadge & _); [discriminate | exact Hnf |].
  destruct (renderAlertsSection _) as [b v]. cbn in *. subst. reflexivity.
Defined.

(** *** Fixing an issue *)

(** C6, as the specification states it, fails at the upper ends of the two
    intervals.  [largest_draw] is a draw of [0, 1); with it
    [230 + r * 10] rounds to 240 and [15 + r * 5] rounds to 20, so fixing
    P001 in the mock data gives it voltage 240 and current 20, which are
    not below 240 and 20.  The draw [1 - 2^-52] gives the same two sums. *)
Lemma C6_counterexample :
  Number.unit_draw largest_draw = true
  /\ (exists p p',
       poles initialState !! 0%nat = Some p
       /\ poles (exec (handleFixIssue largestDrawEnv (PoleData.id p))
                   initialState) !! 0%nat = Some p'
       /\ PoleData.voltage p' = Number.of_Z 240
       /\ Number.ltb (PoleData.voltage p') (Number.of_Z 240) = false
       /\ PoleData.current p' = Number.of_Z 20
       /\ Number.ltb (PoleData.current p') (Number.of_Z 20) = false)
  /\ Number.unit_draw largest_draw_52 = true
  /\ Number.add (Number.of_Z 230) (Number.mul largest_draw_52 (Number.of_Z 10))
     = Number.of_Z 240
  /\ Number.add (Number.of_Z 15) (Number.mul largest_draw_52 (Number.of_Z 5))
     = Number.of_Z 20.
Proof.
  split; [vm_compute; reflexivity|]. split.
  - do 2 eexists. split; [reflexivity|]. split; [reflexivity|].
    repeat split; vm_compute; reflexivity.
  - repeat split; vm_compute; reflexivity.
Qed.

(** C6, amended.  For every pole [p] of the registry and all draws [r1],
    [r2] of [0, 1), [handleFixIssue (id p)] leaves at the position of [p] a
    pole with status [healthy], no fault type, no severity, a voltage in
    the closed interval from 230 to 240 and a current in the closed
    interval from 15 to 20; every pole with another id is unchanged. *)
Theorem C6_fix_sets_pole env (s : State) (i : nat) (p : PoleData.t) :
  poles s !! i = Some p ->
  Number.unit_draw (Math_random env i 0) = true ->
  Number.unit_draw (Math_random env i 1) = true ->
  let s' := exec (handleFixIssue env (PoleData.id p)) s in
  (exists p', poles s' !! i = Some p'
     /\ PoleData.status p' = healthy
     /\ PoleData.faultType p' = None
     /\ PoleData.severity p' = None
     /\ Number.leb (Number.of_Z 230) (PoleData.voltage p') = true
     /\ Number.leb (PoleData.voltage p') (Number.of_Z 240) = true
     /\ Number.leb (Number.of_Z 15) (PoleData.current p') = true
     /\ Number.leb (PoleData.current p') (Number.of_Z 20) = true
     /\ PoleData.id p' = PoleData.id p)
  /\ (forall j q, poles s !! j = Some q ->
                 PoleData.id q <> PoleData.id p -> poles s' !! j = Some q).
Proof.
  intros Hp Hr1 Hr2 s'. subst s'. run_handler. split.
  - rewrite list_lookup_imap, Hp. cbn. rewrite String.eqb_refl.
    eexists. split; [reflexivity|]. cbn.
    destruct (voltage_draw_range _ Hr1) as [Hv1 Hv2].
    destruct (current_draw_range _ Hr2) as [Hc1 Hc2].
    repeat split; assumption.
  - intros j q Hq Hne. rewrite list_lookup_imap, Hq. cbn.
    case_id; [contradiction | reflexivity].
Qed.

Lemma C6_fix_sets_pole_witness :
  exists p, poles initialState !! 0%nat = Some p
    /\ exists p', poles (exec (handleFixIssue sampleEnv (PoleData.id p))
                              initialState) !! 0%nat = Some p'
         /\ PoleData.status p' = healthy
         /\ Number.leb (PoleData.voltage p') (Number.of_Z 240) = true.
Proof.
  eexists. split; [reflexivity|].
  destruct (C6_fix_sets_pole sampleEnv initialState 0 _ eq_refl)
    as [(p' & Hp' & Hst & _ & _ & _ & Hv & _) _];
    [vm_compute; reflexivity | vm_compute; reflexivity |].
  exists p'. repeat split; assumption.
Defined.

(** ** Further properties of the handlers *)

Lemma hasActiveFaults_true (ps : list PoleData.t) :
  hasActiveFaults ps = true <->
  exists p, p ∈ ps /\ PoleData.status p = faulty.
Proof.
  unfold hasActiveFaults, faultyPoles. rewrite bool_decide_eq_true. split.
  - destruct (filter _ ps) as [|q l] eqn:Hq; cbn; [lia|]. intros _.
    assert (Hin : q ∈ filter (fun pole => PoleData.status pole = faulty) ps)
      by (rewrite Hq; left).
    apply list_elem_of_filter in Hin as [Hst Hin]. eauto.
  - intros (p & Hin & Hst).
    assert (Hf : p ∈ filter (fun pole => PoleData.status pole = faulty) ps)
      by (apply list_elem_of_filter; auto).
    destruct (filter _ ps); [inversion Hf | cbn; lia].
Qed.

(** X1. The four tiles of the status summary count every pole once: they add
    up to the number of poles. *)
Theorem X1_status_counts_partition (ps : list PoleData.t) :
  statusCount healthy ps + statusCount faulty ps
  + statusCount isolated ps + statusCount maintenance ps = length ps.
Proof.
  unfold statusCount. induction ps as [|p ps IH]; [reflexivity|].
  rewrite !filter_cons. cbn [length]. rewrite <- IH.
  destruct (PoleData.status p); repeat case_decide; try congruence; cbn; lia.
Qed.

(** X2. In every reachable state a pole has [isolatedBy] set exactly when it
    has [isolatedAt] set, and an isolated pole has both: the popup reads
    [isolatedAt] whenever [isolatedBy] is set. *)
Theorem X2_isolation_marks_paired (s : State) :
  reachable s ->
  forall p, p ∈ poles s ->
    (is_Some (PoleData.isolatedBy p) <-> is_Some (PoleData.isolatedAt p))
    /\ (PoleData.status p = isolated -> is_Some (PoleData.isolatedBy p)).
Proof.
  induction 1 as [|env a s _ IH]; intros p Hp.
  - cbn in Hp.
    repeat (apply elem_of_cons in Hp as [->|Hp];
            [cbn; split; [split; intros [x Hx]; try discriminate Hx; eauto
                         | intros Hst; try discriminate Hst; eauto]|]).
    inversion Hp.
  - destruct a; run_handler; try (apply IH; assumption);
      apply elem_of_lookup_imap in Hp as (i & x & -> & Hx);
      apply list_elem_of_lookup_2 in Hx;
      case_id; try (apply IH; assumption); cbn;
      (split; [|intros Hst; try discriminate Hst; eauto]);
      try (apply (IH x Hx));
      split; intros [y Hy]; try discriminate Hy; eauto.
Qed.

Lemma X2_isolation_marks_paired_witness :
  exists p, poles (step sampleEnv (IsolatePole "P001") initialState) !! 0%nat
            = Some p
    /\ is_Some (PoleData.isolatedAt p).
Proof.
  eexists. split; [reflexivity|].
  destruct (X2_isolation_marks_paired
              (step sampleEnv (IsolatePole "P001") initialState)
              (reachable_step _ _ _ reachable_init) _
              (list_elem_of_here _ _)) as [[Hby _] Hiso].
  apply Hby, Hiso. reflexivity.
Defined.

(** X3. In every reachable state a faulty pole has a fault type and a
    severity. *)
Theorem X3_faulty_poles_described (s : State) :
  reachable s ->
  forall p, p ∈ poles s -> PoleData.status p = faulty ->
    is_Some (PoleData.faultType p) /\ is_Some (PoleData.severity p).
Proof.
  induction 1 as [|env a s _ IH]; intros p Hp Hst.
  - cbn in Hp.
    repeat (apply elem_of_cons in Hp as [->|Hp];
            [first [discriminate Hst | split; eauto]|]).
    inversion Hp.
  - destruct a; run_handler; try (apply IH; assumption);
      apply elem_of_lookup_imap in Hp as (i & x & -> & Hx);
      apply list_elem_of_lookup_2 in Hx;
      revert Hst; case_id; cbn; intros Hst;
      first [discriminate Hst | apply IH; assumption | split; eauto].
Qed.

Lemma X3_faulty_poles_described_witness :
  exists p, poles (step sampleEnv
                     (AddIssue "P002" (IssueData.mk "Line Break" low ""))
                     initialState) !! 1%nat = Some p
    /\ is_Some (PoleData.faultType p).
Proof.
  eexists. split; [reflexivity|].
  apply (X3_faulty_poles_described
           (step sampleEnv (AddIssue "P002" (IssueData.mk "Line Break" low ""))
              initialState)).
  - apply reachable_step, reachable_init.
  - right. left.
  - reflexivity.
Defined.

Lemma step_keeps_placement env a s :
  placement <$> poles (step env a s) = placement <$> poles s.
Proof.
  destruct a; run_handler; try reflexivity;
    apply fmap_imap_preserved; intros i x; case_id; reflexivity.
Qed.

Lemma reachable_placement s :
  reachable s -> placement <$> poles s = placement <$> mockPoles.
Proof.
  induction 1 as [|env a s _ IH]; [reflexivity|].
  rewrite step_keeps_placement. exact IH.
Qed.

(** X4. No handler moves or renames a pole: after every action each
    position of the registry holds a pole with the id, latitude, longitude
    and location it had before, so the markers of every reachable state
    stand where the mock data puts them. *)
Theorem X4_poles_never_move :
  (forall env a s i p,
     poles s !! i = Some p ->
     exists p', poles (step env a s) !! i = Some p'
       /\ placement p' = placement p)
  /\ (forall s, reachable s ->
        placement <$> poles s = placement <$> mockPoles).
Proof.
  split; [|exact reachable_placement].
  intros env a s i p Hp.
  assert (H := f_equal (fun l => l !! i) (step_keeps_placement env a s)).
  cbn in H. rewrite !list_lookup_fmap, Hp in H.
  destruct (poles (step env a s) !! i) as [p'|]; [|discriminate H].
  exists p'. split; [reflexivity|]. cbn in H. congruence.
Qed.

Lemma X4_poles_never_move_witness :
  placement <$> poles (step sampleEnv (FixIssue "P001") initialState)
  = placement <$> mockPoles.
Proof.
  apply (proj2 X4_poles_never_move).
  apply reachable_step, reachable_init.
Defined.

(** X5. In every reachable state the pole ids are pairwise distinct, so an
    id names one pole. *)
Theorem X5_pole_ids_unique (s : State) :
  reachable s -> NoDup (PoleData.id <$> poles s).
Proof.
  intros Hs.
  assert (Hids : PoleData.id <$> poles s
                 = ["P001"; "P002"; "P003"; "P004"; "P005"]).
  { assert (H := f_equal (fmap fst) (f_equal (fmap fst) (f_equal (fmap fst)
                   (reachable_placement s Hs)))).
    rewrite <- !list_fmap_compose in H. exact H. }
  rewrite Hids.
  repeat (apply NoDup_cons; split;
          [rewrite ?elem_of_cons, elem_of_nil; intuition discriminate|]).
  apply NoDup_nil_2.
Qed.

Lemma X5_pole_ids_unique_witness :
  NoDup (PoleData.id <$> poles (step sampleEnv (IsolatePole "P004") initialState)).
Proof.
  apply X5_pole_ids_unique. apply reachable_step, reachable_init.
Defined.

(** X6. No handler files an alert on behalf of the system: every alert of a
    reachable state is either marked [manual] or is one of the two mock
    alerts, which carry no mark. *)
Theorem X6_alerts_manual_or_mock (s : State) :
  reachable s ->
  forall a, a ∈ alerts s ->
    Alert.createdBy a = Some manual
    \/ (Alert.createdBy a = None
        /\ (Alert.id a = "A001" \/ Alert.id a = "A002")).
Proof.
  induction 1 as [|env act s _ IH]; intros a Ha.
  - cbn in Ha.
    repeat (apply elem_of_cons in Ha as [->|Ha]; [right; cbn; auto|]).
    inversion Ha.
  - destruct act; run_handler.
    + apply elem_of_cons in Ha as [->|Ha]; [left; reflexivity | auto].
    + apply list_elem_of_filter in Ha as [_ Ha]. auto.
    + auto.
    + apply list_elem_of_filter in Ha as [_ Ha]. auto.
    + apply list_elem_of_filter in Ha as [_ Ha]. auto.
    + inversion Ha.
    + apply list_elem_of_fmap in Ha as (x & -> & Hx).
      case_id; [|auto]. destruct (IH x Hx) as [Hm|Hm]; [left|right]; exact Hm.
Qed.

Lemma X6_alerts_manual_or_mock_witness :
  exists a, alerts (step sampleEnv
                      (AddIssue "P002" (IssueData.mk "Line Break" low ""))
                      initialState) !! 0%nat = Some a
    /\ Alert.createdBy a = Some manual.
Proof.
  eexists. split; [reflexivity|].
  destruct (X6_alerts_manual_or_mock
              (step sampleEnv (AddIssue "P002" (IssueData.mk "Line Break" low ""))
                 initialState)
              (reachable_step _ _ _ reachable_init) _ (list_elem_of_here _ _))
    as [Hm|[Hn _]]; [exact Hm | discriminate Hn].
Defined.

(** X7. Adding an issue to a pole and then fixing that pole removes the new
    alert together with every earlier alert of the pole, and leaves the
    pole healthy with no fault type and no severity. *)
Theorem X7_add_then_fix env1 env2 (s : State) (poleId : string)
    (data : IssueData.t) :
  let s' := step env2 (FixIssue poleId) (step env1 (AddIssue poleId data) s) in
  alerts s' = filter (fun a => Alert.poleId a <> poleId) (alerts s)
  /\ (forall a, a ∈ alerts s' -> Alert.poleId a <> poleId)
  /\ (forall i p, poles s !! i = Some p -> PoleData.id p = poleId ->
        exists p', poles s' !! i = Some p'
          /\ PoleData.status p' = healthy
          /\ PoleData.faultType p' = None
          /\ PoleData.severity p' = None).
Proof.
  cbv zeta. run_handler.
  assert (Hal : filter (fun a => Alert.poleId a <> poleId)
                  ({| Alert.id := "A" +:+ string_of_N (Date_now env1);
                      Alert.poleId := poleId;
                      Alert.message :=
                        "Pole #" +:+ poleId +:+ " - "
                        +:+ IssueData.faultType data +:+ " (Manual)";
                      Alert.timestamp := Date_toISOString env1;
                      Alert.severity := IssueData.severity data;
                      Alert.isExpanded := None;
                      Alert.createdBy := Some manual |} :: alerts s)
                = filter (fun a => Alert.poleId a <> poleId) (alerts s)).
  { apply filter_cons_False. cbn. auto. }
  rewrite Hal. split; [reflexivity|]. split.
  - intros a Ha. apply list_elem_of_filter in Ha as [Hne _]. exact Hne.
  - intros i p Hp Hid. apply String.eqb_eq in Hid.
    rewrite !list_lookup_imap, Hp. cbn. rewrite Hid. cbn. rewrite Hid.
    eexists. split; [reflexivity|]. cbn. auto.
Qed.

Lemma X7_add_then_fix_witness :
  exists p', poles (step sampleEnv (FixIssue "P002")
                      (step sampleEnv
                         (AddIssue "P002" (IssueData.mk "Line Break" low ""))
                         initialState)) !! 1%nat = Some p'
    /\ PoleData.status p' = healthy.
Proof.
  destruct (X7_add_then_fix sampleEnv sampleEnv initialState "P002"
              (IssueData.mk "Line Break" low "")) as (_ & _ & H).
  destruct (H 1%nat _ eq_refl eq_refl) as (p' & Hp' & Hst & _).
  exists p'. split; assumption.
Defined.

(** X8. Toggling the details of an alert flips the [expanded] flag of the
    alerts with that id and changes nothing else; toggling twice shows
    every card as before, and no toggle touches the registry. *)
Theorem X8_toggle_expand (s : State) (alertId : string) (i : nat)
    (a : Alert.t) :
  alerts s !! i = Some a ->
  let s1 := exec (handleToggleAlertExpand alertId) s in
  let s2 := exec (handleToggleAlertExpand alertId) s1 in
  let same_card (x y : Alert.t) :=
    Alert.id x = Alert.id y /\ Alert.poleId x = Alert.poleId y
    /\ Alert.message x = Alert.message y
    /\ Alert.timestamp x = Alert.timestamp y
    /\ Alert.severity x = Alert.severity y
    /\ Alert.createdBy x = Alert.createdBy y in
  (exists a1, alerts s1 !! i = Some a1 /\ same_card a1 a
     /\ expanded a1 = (if (Alert.id a =? alertId)%string
                       then negb (expanded a) else expanded a)
     /\ (Alert.id a <> alertId -> a1 = a))
  /\ (exists a2, alerts s2 !! i = Some a2 /\ same_card a2 a
        /\ expanded a2 = expanded a)
  /\ poles s2 = poles s.
Proof.
  intros Ha. cbv zeta. run_handler. rewrite !list_lookup_fmap, Ha. cbn.
  destruct (String.eqb_spec (Alert.id a) alertId) as [Heq|Hne]; cbn.
  - apply String.eqb_eq in Heq as Heq'. rewrite Heq'.
    split; [|split; [|reflexivity]].
    + eexists. split; [reflexivity|]. unfold expanded. cbn.
      repeat split; auto. contradiction.
    + eexists. split; [reflexivity|]. unfold expanded. cbn.
      rewrite negb_involutive. repeat split; auto.
  - apply String.eqb_neq in Hne as Hne'. rewrite Hne'.
    split; [|split; [|reflexivity]];
      (eexists; split; [reflexivity|]); repeat split; auto.
Qed.

Lemma X8_toggle_expand_witness :
  exists a2, alerts (exec (handleToggleAlertExpand "A001")
                       (exec (handleToggleAlertExpand "A001") initialState))
               !! 0%nat = Some a2
    /\ expanded a2 = false.
Proof.
  destruct (X8_toggle_expand initialState "A001" 0 _ eq_refl)
    as (_ & (a2 & Ha2 & _ & Hexp) & _).
  exists a2. split; assumption.
Defined.

(** The decimal print of a natural number determines the number. *)
Lemma string_of_N_inj (m n : N) : string_of_N m = string_of_N n -> m = n.
Proof.
  unfold string_of_N. intros H.
  assert (Hnil : forall k : N, N.to_uint k <> Decimal.Nil).
  { intros [|p]; [discriminate | apply Stdlib.Numbers.DecimalPos.Unsigned.to_uint_nonnil]. }
  assert (Hu : Some (N.to_uint m) = Some (N.to_uint n)).
  { rewrite <- (NilZero.usu (N.to_uint m)), <- (NilZero.usu (N.to_uint n))
      by apply Hnil. now rewrite H. }
  injection Hu as Hu.
  rewrite <- (Stdlib.Numbers.DecimalN.Unsigned.of_to m), <- (Stdlib.Numbers.DecimalN.Unsigned.of_to n).
  now rewrite Hu.
Qed.

(** X9. The id of a manual alert is ["A"] followed by the clock reading in
    milliseconds, so two issues added at the same reading get the same
    alert id, and dismissing one of the two alerts dismisses both. *)
Theorem X9_same_millisecond_alerts_share_fate env1 env2 (s : State)
    (pole1 pole2 : string) (data1 data2 : IssueData.t) :
  Date_now env1 = Date_now env2 ->
  let s2 := step env2 (AddIssue pole2 data2)
              (step env1 (AddIssue pole1 data1) s) in
  exists a1 a2,
    alerts s2 = a2 :: a1 :: alerts s
    /\ Alert.poleId a1 = pole1 /\ Alert.poleId a2 = pole2
    /\ Alert.id a1 = Alert.id a2
    /\ alerts (exec (handleDeleteAlert (Alert.id a2)) s2)
       = filter (fun a => Alert.id a <> Alert.id a2) (alerts s)
    /\ a1 ∉ alerts (exec (handleDeleteAlert (Alert.id a2)) s2).
Proof.
  intros Hnow. cbv zeta. run_handler. rewrite Hnow.
  do 2 eexists. split; [reflexivity|]. cbn [Alert.id Alert.poleId].
  split; [reflexivity|]. split; [reflexivity|]. split; [reflexivity|].
  rewrite !filter_cons_False by (cbn; auto).
  split; [reflexivity|].
  intros Hin. apply list_elem_of_filter in Hin as [Hne _]. apply Hne. reflexivity.
Qed.

Lemma X9_same_millisecond_alerts_share_fate_witness :
  exists a1 a2,
    alerts (step sampleEnv (AddIssue "P004" (IssueData.mk "Other" low ""))
              (step sampleEnv (AddIssue "P002" (IssueData.mk "Line Break" high ""))
                 initialState))
    = a2 :: a1 :: alerts initialState
    /\ Alert.id a1 = Alert.id a2.
Proof.
  destruct (X9_same_millisecond_alerts_share_fate sampleEnv sampleEnv
              initialState "P002" "P004" (IssueData.mk "Line Break" high "")
              (IssueData.mk "Other" low "") eq_refl)
    as (a1 & a2 & Hal & _ & _ & Hid & _).
  exists a1, a2. split; assumption.
Defined.

(** X10. Two issues added at different clock readings get different alert
    ids, and dismissing the later alert keeps the earlier one. *)
Theorem X10_distinct_milliseconds_distinct_alerts env1 env2 (s : State)
    (pole1 pole2 : string) (data1 data2 : IssueData.t) :
  Date_now env1 <> Date_now env2 ->
  let s2 := step env2 (AddIssue pole2 data2)
              (step env1 (AddIssue pole1 data1) s) in
  exists a1 a2,
    alerts s2 = a2 :: a1 :: alerts s
    /\ Alert.id a1 <> Alert.id a2
    /\ alerts (exec (handleDeleteAlert (Alert.id a2)) s2)
       = a1 :: filter (fun a => Alert.id a <> Alert.id a2) (alerts s).
Proof.
  intros Hnow. cbv zeta. run_handler.
  do 2 eexists. split; [reflexivity|]. cbn [Alert.id Alert.poleId].
  assert (Hne : "A" +:+ string_of_N (Date_now env1)
                <> "A" +:+ string_of_N (Date_now env2)).
  { intros H. injection H as H. apply Hnow, string_of_N_inj, H. }
  split; [exact Hne|].
  rewrite filter_cons_False by (cbn; auto).
  rewrite filter_cons_True by (cbn; exact Hne). reflexivity.
Qed.

Lemma X10_distinct_milliseconds_distinct_alerts_witness :
  exists a1 a2,
    alerts (step laterEnv (AddIssue "P004" (IssueData.mk "Other" low ""))
              (step sampleEnv
                 (AddIssue "P002" (IssueData.mk "Line Break" high ""))
                 initialState))
    = a2 :: a1 :: alerts initialState
    /\ Alert.id a1 <> Alert.id a2.
Proof.
  destruct (X10_distinct_milliseconds_distinct_alerts sampleEnv laterEnv
              initialState "P002" "P004" (IssueData.mk "Line Break" high "")
              (IssueData.mk "Other" low ""))
    as (a1 & a2 & Hal & Hid & _); [discriminate|].
  exists a1, a2. split; assumption.
Defined.

(** X11. Resetting while some pole is faulty empties the alert log but fixes
    no pole, so the alert section shows an empty list of cards under a
    badge of 0, not the "All lines are healthy" box. *)
Theorem X11_reset_keeps_faults env (s : State) :
  (exists p, p ∈ poles s /\ PoleData.status p = faulty) ->
  let s' := step env ResetConfirm s in
  poles s' = poles s
  /\ hasActiveFaults (poles s') = true
  /\ renderAlertsSection s' = {| badge := 0; body := AlertCards [] |}.
Proof.
  intros Hf. apply hasActiveFaults_true in Hf. cbv zeta.
  unfold renderAlertsSection. run_handler. rewrite Hf. auto.
Qed.

Lemma X11_reset_keeps_faults_witness :
  renderAlertsSection (step sampleEnv ResetConfirm initialState)
  = {| badge := 0; body := AlertCards [] |}.
Proof.
  apply (X11_reset_keeps_faults sampleEnv initialState).
  eexists. split; [left | reflexivity].
Defined.

(** X12. After an issue is added to a pole of the registry some pole is
    faulty, so the alert section shows the cards, the new alert first, and
    its badge counts one alert more. *)
Theorem X12_added_issue_is_shown env (s : State) (poleId : string)
    (data : IssueData.t) :
  (exists p, p ∈ poles s /\ PoleData.id p = poleId) ->
  let s' := step env (AddIssue poleId data) s in
  hasActiveFaults (poles s') = true
  /\ exists a, Alert.poleId a = poleId
       /\ renderAlertsSection s'
          = {| badge := S (length (alerts s));
               body := AlertCards (a :: alerts s) |}.
Proof.
  intros (p & Hin & Hid). cbv zeta.
  assert (Hact : hasActiveFaults (poles (step env (AddIssue poleId data) s)) = true).
  { apply hasActiveFaults_true.
    apply list_elem_of_lookup in Hin as [i Hi].
    run_handler. eexists. split.
    - eapply list_elem_of_lookup_2. rewrite list_lookup_imap, Hi. reflexivity.
    - cbn. apply String.eqb_eq in Hid. rewrite Hid. reflexivity. }
  split; [exact Hact|].
  unfold renderAlertsSection. rewrite Hact. run_handler.
  eexists. split; [|reflexivity]. reflexivity.
Qed.

Lemma X12_added_issue_is_shown_witness :
  hasActiveFaults
    (poles (step sampleEnv (AddIssue "P004" (IssueData.mk "Other" low ""))
              (step sampleEnv (FixIssue "P001") initialState))) = true.
Proof.
  apply (X12_added_issue_is_shown sampleEnv
           (step sampleEnv (FixIssue "P001") initialState) "P004").
  eexists. split; [do 3 right; left | reflexivity].
Defined.

(** X13. Fixing and restoring a pole differ in one respect only: restoring
    removes the isolation marks [isolatedBy] and [isolatedAt] of the pole,
    fixing keeps them.  With the same readings the two registries agree
    position by position once the marks of the named pole are removed, and
    the two alert logs are equal. *)
Theorem X13_fix_keeps_isolation_marks env (s : State) (poleId : string) :
  let fixed := step env (FixIssue poleId) s in
  let restored := step env (RestorePole poleId) s in
  alerts restored = alerts fixed
  /\ (forall i p, poles fixed !! i = Some p ->
        poles restored !! i
        = Some (if (PoleData.id p =? poleId)%string
                then withoutIsolationMarks p else p))
  /\ (forall i p, poles s !! i = Some p -> PoleData.id p = poleId ->
        exists p', poles fixed !! i = Some p'
          /\ PoleData.status p' = healthy
          /\ PoleData.isolatedBy p' = PoleData.isolatedBy p
          /\ PoleData.isolatedAt p' = PoleData.isolatedAt p).
Proof.
  cbv zeta. run_handler. split; [reflexivity|]. split.
  - intros i p. rewrite !list_lookup_imap.
    destruct (poles s !! i) as [x|]; cbn; [|discriminate].
    intros [= <-]. destruct (String.eqb_spec (PoleData.id x) poleId) as [Heq|Hne].
    + cbn. apply String.eqb_eq in Heq. rewrite Heq. reflexivity.
    + apply String.eqb_neq in Hne. rewrite Hne. reflexivity.
  - intros i p Hp Hid. apply String.eqb_eq in Hid.
    rewrite list_lookup_imap, Hp. cbn. rewrite Hid.
    eexists. split; [reflexivity|]. cbn. auto.
Qed.

Lemma X13_fix_keeps_isolation_marks_witness :
  exists p', poles (step sampleEnv (FixIssue "P003") initialState) !! 2%nat
             = Some p'
    /\ PoleData.status p' = healthy
    /\ PoleData.isolatedBy p' = Some "Admin".
Proof.
  destruct (X13_fix_keeps_isolation_marks sampleEnv initialState "P003")
    as (_ & _ & H).
  destruct (H 2%nat _ eq_refl eq_refl) as (p' & Hp' & Hst & Hby & _).
  exists p'. repeat split; assumption.
Defined.

(** ** The panel around the handlers *)

(** Running an effect symbolically. *)
Ltac run_fx :=
  unfold run, returned, logged in *;
  unfold clickPopup, clickManual,
    handleMarkerClick, handleIsolateLine, handleIsolationConfirm,
    handleRemoteIsolate, handleFocusPole in *;
  unfold onState,
    setSelectedPole, setShowPolePopup, setShowIsolationModal,
    setShowAddIssueModal, setShowFixIssueModal, setShowManualControlsModal,
    setIsolationPoleId, setSelectedPoleId in *;
  run_handler;
  unfold mbind, mret, Fx_bind, Fx_ret, fx_toast, fx_get, fx_modify in *;
  cbn [fst snd app poles alerts
       panelState selectedPole showPolePopup showIsolationModal
       showResetModal showAddIssueModal showFixIssueModal
       showManualControlsModal isolationPoleId selectedPoleId] in *.

(** X14. Focusing a pole from an alert card selects the pole and says so
    when the registry holds a pole with that id; when it holds none, as for
    an alert filed for an unknown pole, nothing happens and nothing is
    said. *)
Theorem X14_focus_pole (P : Panel) (poleId : string) :
  ((exists p, p ∈ poles (panelState P) /\ PoleData.id p = poleId) ->
     selectedPoleId (run (handleFocusPole poleId) P) = Some poleId
     /\ panelState (run (handleFocusPole poleId) P) = panelState P
     /\ logged (handleFocusPole poleId) P
        = [toast_info ("Focused on pole " +:+ poleId)])
  /\ ((forall p, p ∈ poles (panelState P) -> PoleData.id p <> poleId) ->
        run (handleFocusPole poleId) P = P
        /\ logged (handleFocusPole poleId) P = []).
Proof.
  split.
  - intros (p & Hin & Hid). run_fx.
    destruct (List.find _ (poles (panelState P))) as [q|] eqn:Hfind.
    + cbn. auto.
    + exfalso. apply list_elem_of_In in Hin.
      apply (List.find_none _ _ Hfind) in Hin.
      apply String.eqb_neq in Hin. contradiction.
  - intros Habs. run_fx.
    destruct (List.find _ (poles (panelState P))) as [q|] eqn:Hfind.
    + exfalso. apply List.find_some in Hfind as [Hin Hid].
      apply list_elem_of_In in Hin. apply String.eqb_eq in Hid.
      eapply Habs; eauto.
    + cbn. auto.
Qed.

Lemma X14_focus_pole_witness :
  run (handleFocusPole "P999") initialPanel = initialPanel.
Proof.
  apply (proj2 (X14_focus_pole initialPanel "P999")).
  intros p Hp. cbn in Hp.
  repeat (apply elem_of_cons in Hp as [->|Hp]; [discriminate|]).
  inversion Hp.
Defined.

(** X15. [handleRemoteIsolate] picks the first faulty pole of the registry
    and opens the isolation dialog for it; without a faulty pole it does
    nothing.  Confirming with [handleIsolationConfirm] announces
    "Isolation complete" and writes neither poles nor alerts: the pole
    picked is as faulty as before. *)
Theorem X15_remote_isolation_isolates_nothing (P : Panel) :
  let P1 := run handleRemoteIsolate P in
  let P2 := run handleIsolationConfirm P1 in
  panelState P2 = panelState P
  /\ logged handleIsolationConfirm P1 = [toast_success "Isolation complete"]
  /\ (faultyPoles (poles (panelState P)) = [] -> P1 = P)
  /\ (forall first rest,
        faultyPoles (poles (panelState P)) = first :: rest ->
        isolationPoleId P1 = Some (PoleData.id first)
        /\ showIsolationModal P1 = true
        /\ (exists before after,
              poles (panelState P2) = before ++ first :: after
              /\ PoleData.status first = faulty
              /\ Forall (fun q => PoleData.status q <> faulty) before)).
Proof.
  cbv zeta. run_fx.
  destruct (faultyPoles (poles (panelState P))) as [|first rest] eqn:Hfp; cbn.
  - split; [reflexivity|]. split; [reflexivity|]. split; [reflexivity|].
    intros f r Hnil. discriminate Hnil.
  - split; [reflexivity|]. split; [reflexivity|].
    split; [intros Hnil; discriminate Hnil|].
    intros f r [= <- <-]. split; [reflexivity|]. split; [reflexivity|].
    assert (Hin : first ∈ filter (fun pole => PoleData.status pole = faulty)
                    (poles (panelState P)))
      by (unfold faultyPoles in Hfp; rewrite Hfp; left).
    apply list_elem_of_filter in Hin as [Hst _].
    assert (Hhead : head (filter (fun pole => PoleData.status pole = faulty)
                            (poles (panelState P))) = Some first)
      by (unfold faultyPoles in Hfp; rewrite Hfp; reflexivity).
    apply head_filter_Some in Hhead as (before & after & Heq & Hbefore).
    exists before, after. auto.
Qed.

Lemma X15_remote_isolation_isolates_nothing_witness :
  isolationPoleId (run handleRemoteIsolate initialPanel) = Some "P001".
Proof.
  destruct (X15_remote_isolation_isolates_nothing initialPanel)
    as (_ & _ & _ & H).
  exact (proj1 (H _ _ eq_refl)).
Defined.

(** X16. The popup shows the pole it was opened on, not the pole of the
    registry.  Opened on a faulty pole it keeps offering "Fix Issue", and
    not "Restore Line", after "Isolate Line" has isolated the pole; that
    "Fix Issue" then leaves a healthy pole still marked as isolated by
    "Manual Control". *)
Theorem X16_popup_acts_on_snapshot env1 env2 (P : Panel) (i : nat)
    (p : PoleData.t) :
  poles (panelState P) !! i = Some p ->
  PoleData.status p = faulty ->
  let P1 := run (handleMarkerClick p) P in
  let P2 := run (clickPopup env1 (PopupIsolateLine (PoleData.id p))) P1 in
  let P3 := run (clickPopup env2 (PopupFixIssue (PoleData.id p))) P2 in
  PopupIsolateLine (PoleData.id p) ∈ PolePopup (selectedPole P1)
  /\ (exists q, poles (panelState P2) !! i = Some q
        /\ PoleData.status q = isolated)
  /\ selectedPole P2 = Some p /\ showPolePopup P2 = true
  /\ PopupFixIssue (PoleData.id p) ∈ PolePopup (selectedPole P2)
  /\ (PopupRestoreLine (PoleData.id p) ∉ PolePopup (selectedPole P2))
  /\ (exists q, poles (panelState P3) !! i = Some q
        /\ PoleData.status q = healthy
        /\ PoleData.isolatedBy q = Some "Manual Control"
        /\ is_Some (PoleData.isolatedAt q)).
Proof.
  intros Hp Hst. cbv zeta. run_fx.
  unfold PolePopup. rewrite Hst.
  repeat case_decide; try discriminate; try contradiction.
  rewrite !list_lookup_imap, Hp. cbn. rewrite String.eqb_refl. cbn.
  rewrite String.eqb_refl.
  split; [rewrite !elem_of_cons; auto|].
  split; [eexists; split; reflexivity|].
  split; [reflexivity|]. split; [reflexivity|].
  split; [rewrite !elem_of_cons; auto|].
  split; [rewrite !elem_of_cons, elem_of_nil; intuition discriminate|].
  eexists. split; [reflexivity|]. cbn. eauto.
Qed.

Lemma X16_popup_acts_on_snapshot_witness :
  exists p q, poles initialState !! 0%nat = Some p
    /\ poles (panelState
                (run (clickPopup sampleEnv (PopupFixIssue (PoleData.id p)))
                   (run (clickPopup sampleEnv (PopupIsolateLine (PoleData.id p)))
                      (run (handleMarkerClick p) initialPanel)))) !! 0%nat
       = Some q
    /\ PoleData.status q = healthy
    /\ PoleData.isolatedBy q = Some "Manual Control".
Proof.
  eexists.
  destruct (X16_popup_acts_on_snapshot sampleEnv sampleEnv initialPanel 0 _
              eq_refl eq_refl)
    as (_ & _ & _ & _ & _ & _ & q & Hq & Hst & Hby & _).
  exists q. split; [reflexivity|]. repeat split; assumption.
Defined.

(** X17. Every pole that is not healthy has, in its row of the manual
    control centre, a button that makes it healthy; the popup of a pole in
    maintenance offers nothing but "View History". *)
Theorem X17_manual_controls_recover env (P : Panel) (i : nat)
    (p : PoleData.t) :
  poles (panelState P) !! i = Some p ->
  PoleData.status p <> healthy ->
  (exists b, b ∈ ManualControlsRow p
     /\ exists p', poles (panelState (run (clickManual env b) P)) !! i = Some p'
          /\ PoleData.status p' = healthy)
  /\ (PoleData.status p = maintenance ->
      PolePopup (Some p) = [ViewHistory (PoleData.id p)]).
Proof.
  intros Hp Hst. split.
  - unfold ManualControlsRow.
    destruct (PoleData.status p) eqn:Hs; [contradiction| | |];
      repeat case_decide; try discriminate; try contradiction; cbn;
      [exists (ManualFix (PoleData.id p))
      |exists (ManualRestore (PoleData.id p))
      |exists (ManualCompleteMaintenance (PoleData.id p))];
      (split; [rewrite !elem_of_cons; auto|]);
      run_fx; rewrite list_lookup_imap, Hp; cbn;
      rewrite String.eqb_refl; eexists; split; reflexivity.
  - intros Hm. unfold PolePopup. rewrite Hm.
    repeat case_decide; try discriminate; try contradiction. reflexivity.
Qed.

Lemma X17_manual_controls_recover_witness :
  exists p, poles initialState !! 4%nat = Some p
    /\ exists b, b ∈ ManualControlsRow p
       /\ exists p', poles (panelState (run (clickManual sampleEnv b) initialPanel))
                       !! 4%nat = Some p'
            /\ PoleData.status p' = healthy.
Proof.
  eexists. split; [reflexivity|].
  apply (X17_manual_controls_recover sampleEnv initialPanel 4 _ eq_refl).
  discriminate.
Defined.



(** X19. Submitting the "Add Manual Issue" form without a pole or without a
    fault type only shows an error: panel and form stay as they are.
    Otherwise the issue is added, the dialog closes and the form is
    cleared; the pole is then no longer among the poles the form offers,
    and is among those the "Fix Issue" form offers if the registry holds
    it. *)
Theorem X19_add_issue_form env (P : Panel) (form : AddIssueModal.Form) :
  let P' := run (AddIssueModal.handleSubmit env form) P in
  let data := {| IssueData.faultType := AddIssueModal.faultType form;
                 IssueData.severity := AddIssueModal.severity form;
                 IssueData.description := AddIssueModal.description form |} in
  (AddIssueModal.selectedPoleId form = ""
   \/ AddIssueModal.faultType form = "" ->
     P' = P
     /\ returned (AddIssueModal.handleSubmit env form) P = form
     /\ logged (AddIssueModal.handleSubmit env form) P
        = [toast_error "Please fill in all required fields"])
  /\ (AddIssueModal.selectedPoleId form <> ""
      /\ AddIssueModal.faultType form <> "" ->
        panelState P'
        = step env (AddIssue (AddIssueModal.selectedPoleId form) data)
            (panelState P)
        /\ showAddIssueModal P' = false
        /\ returned (AddIssueModal.handleSubmit env form) P
           = AddIssueModal.emptyForm
        /\ Forall (fun t => is_error t = false)
             (logged (AddIssueModal.handleSubmit env form) P)
        /\ (forall q, q ∈ AddIssueModal.options (poles (panelState P')) ->
              PoleData.id q <> AddIssueModal.selectedPoleId form)
        /\ (forall p, p ∈ poles (panelState P) ->
              PoleData.id p = AddIssueModal.selectedPoleId form ->
              exists q, q ∈ FixIssueModal.options (poles (panelState P'))
                /\ PoleData.id q = PoleData.id p)).
Proof.
  cbv zeta. unfold AddIssueModal.handleSubmit. split.
  - intros Hempty.
    assert (Hguard : (AddIssueModal.selectedPoleId form =? "")%string
                     || (AddIssueModal.faultType form =? "")%string = true).
    { apply orb_true_iff.
      destruct Hempty as [H|H]; [left|right]; apply String.eqb_eq, H. }
    rewrite Hguard. run_fx. destruct P. auto.
  - intros [Hpole Hfault].
    apply String.eqb_neq in Hpole as Hp'. apply String.eqb_neq in Hfault as Hf'.
    rewrite Hp', Hf'. cbn [orb]. run_fx.
    unfold AddIssueModal.options, FixIssueModal.options, faultyPoles.
    split; [reflexivity|]. split; [reflexivity|]. split; [reflexivity|].
    split; [repeat constructor|]. split.
    + intros q Hq. apply list_elem_of_filter in Hq as [Hst Hq].
      apply elem_of_lookup_imap in Hq as (i & x & -> & Hx).
      revert Hst. case_id; cbn; [discriminate | auto].
    + intros p Hin Hid. apply list_elem_of_lookup in Hin as [i Hi].
      eexists. split.
      * apply list_elem_of_filter. split; [|eapply elem_of_lookup_imap_2; eauto].
        cbn. apply String.eqb_eq in Hid. rewrite Hid. reflexivity.
      * cbn. apply String.eqb_eq in Hid. rewrite Hid. reflexivity.
Qed.

Lemma X19_add_issue_form_witness :
  showAddIssueModal
    (run (AddIssueModal.handleSubmit sampleEnv
            (AddIssueModal.mkForm "P002" "Line Break" high ""))
       initialPanel) = false.
Proof.
  destruct (X19_add_issue_form sampleEnv initialPanel
              (AddIssueModal.mkForm "P002" "Line Break" high ""))
    as [_ H].
  destruct H as (_ & Hclosed & _); [split; discriminate|]. exact Hclosed.
Defined.

(** X20. Submitting the "Fix Issue" form without a pole only shows an error.
    Otherwise the pole is fixed, the dialog closes and the selection is
    cleared; no pole with that id is then among the poles the form offers,
    and no alert of that pole is left. *)
Theorem X20_fix_issue_form env (P : Panel) (selected : string) :
  let P' := run (FixIssueModal.handleSubmit env selected) P in
  (selected = "" ->
     P' = P
     /\ returned (FixIssueModal.handleSubmit env selected) P = ""
     /\ logged (FixIssueModal.handleSubmit env selected) P
        = [toast_error "Please select a pole to fix"])
  /\ (selected <> "" ->
        panelState P' = step env (FixIssue selected) (panelState P)
        /\ showFixIssueModal P' = false
        /\ returned (FixIssueModal.handleSubmit env selected) P = ""
        /\ (forall q, q ∈ FixIssueModal.options (poles (panelState P')) ->
              PoleData.id q <> selected)
        /\ (forall a, a ∈ alerts (panelState P') -> Alert.poleId a <> selected)).
Proof.
  cbv zeta. unfold FixIssueModal.handleSubmit. split.
  - intros ->. cbn. run_fx. destruct P. auto.
  - intros Hsel. apply String.eqb_neq in Hsel as Hs'. rewrite Hs'. run_fx.
    unfold FixIssueModal.options, faultyPoles.
    split; [reflexivity|]. split; [reflexivity|]. split; [reflexivity|]. split.
    + intros q Hq. apply list_elem_of_filter in Hq as [Hst Hq].
      apply elem_of_lookup_imap in Hq as (i & x & -> & Hx).
      revert Hst. case_id; cbn; [discriminate | auto].
    + intros a Ha. apply list_elem_of_filter in Ha as [Hne _]. exact Hne.
Qed.

Lemma X20_fix_issue_form_witness :
  showFixIssueModal (run (FixIssueModal.handleSubmit sampleEnv "P001")
                       initialPanel) = false.
Proof.
  destruct (X20_fix_issue_form sampleEnv initialPanel "P001") as [_ H].
  destruct H as (_ & Hclosed & _); [discriminate|]. exact Hclosed.
Defined.

(** ** The analytics strip *)

Section FloorOfDraws.
Local Open Scope Z_scope.

Lemma shr_1_half_bit M k mrs :
  0 <= M -> 0 <= k -> shifted M k mrs -> half_bit M (k + 1) (shr_1 mrs).
Proof.
  intros HM Hk [Hm _].
  assert (Hpow : 2 ^ (k + 1) = 2 ^ k * 2) by (rewrite Z.pow_add_r by lia; reflexivity).
  assert (Hpos : 0 < 2 ^ k) by (apply Z.pow_pos_nonneg; lia).
  assert (Hq : 0 <= M / 2 ^ k) by (apply Z.div_pos; lia).
  assert (Hrem := Z.mod_pos_bound M (2 ^ k) Hpos).
  destruct mrs as [m r s]. cbn [shr_m shr_r shr_s] in *. subst m.
  rewrite shr_1_nonneg by assumption. unfold half_bit. cbn [shr_r].
  intros Hodd. rewrite Hpow, Z.rem_mul_r, Zmod_odd, Hodd by lia. lia.
Qed.

Lemma shr_shifted_half (M e n : Z) :
  0 <= M ->
  let k := Z.max 0 n in
  exists mrs, shr (Build_shr_record M false false) e n = (mrs, e + k)
    /\ shifted M k mrs /\ half_bit M k mrs.
Proof.
  intros HM k. subst k.
  assert (Hstart : shifted M 0 (Build_shr_record M false false)
                   /\ half_bit M 0 (Build_shr_record M false false)).
  { split; [split; cbn; [rewrite Z.div_1_r; reflexivity | discriminate]|].
    unfold half_bit. cbn. discriminate. }
  destruct n as [|p|p]; cbn [shr].
  - eexists. split; [f_equal; lia|]. exact Hstart.
  - eexists. split; [f_equal; lia|].
    replace (Z.max 0 (Z.pos p)) with (0 + Z.pos p) by lia.
    apply (iter_pos_invariant shr_1
             (fun k mrs => shifted M k mrs /\ half_bit M k mrs));
      [|lia|exact Hstart].
    intros k x Hk [Hsh _]. split;
      [apply shr_1_shifted | apply shr_1_half_bit]; assumption.
  - eexists. split; [f_equal; lia|]. exact Hstart.
Qed.

(** Rounding to nearest an exact value that is below the midpoint under [h]
    stays under [h]. *)
Lemma round_nearest_even_below (M k h : Z) (mrs : shr_record) :
  0 <= k -> shifted M k mrs -> half_bit M k mrs ->
  2 * M < (2 * h - 1) * 2 ^ k ->
  round_nearest_even (shr_m mrs) (loc_of_shr_record mrs) <= h - 1.
Proof.
  intros Hk [Hm _] Hhalf Hlt.
  assert (Hpos : 0 < 2 ^ k) by (apply Z.pow_pos_nonneg; lia).
  assert (Hdm := Z.div_mod M (2 ^ k) ltac:(lia)).
  assert (Hrem := Z.mod_pos_bound M (2 ^ k) Hpos).
  destruct mrs as [m r s]. unfold half_bit in Hhalf.
  cbn [shr_m shr_r shr_s] in *. subst m.
  assert (Hq : M / 2 ^ k <= h - 1) by nia.
  destruct r.
  - specialize (Hhalf eq_refl).
    assert (M / 2 ^ k + 1 <= h - 1) by nia.
    destruct s; cbn [loc_of_shr_record round_nearest_even];
      try destruct (Z.even _); lia.
  - destruct s; cbn [loc_of_shr_record round_nearest_even]; lia.
Qed.

Lemma binary_round_aux_exact_below (sx : bool) (M E : Z) :
  0 < M ->
  let e1 := Z.max E (fexp64 (Zdigits2 M + E)) in
  exists M1,
    0 <= M1
    /\ (forall h, 2 * M < (2 * h - 1) * 2 ^ (e1 - E) -> M1 <= h - 1)
    /\ let e2 := Z.max e1 (fexp64 (Zdigits2 M1 + e1)) in
       binary_round_aux Number.prec Number.emax sx M E loc_Exact
       = match M1 / 2 ^ (e2 - e1) with
         | Z0 => S754_zero sx
         | Z.pos m => if e2 <=? Number.emax - Number.prec
                      then S754_finite sx m e2 else S754_infinity sx
         | Z.neg _ => S754_nan
         end.
Proof.
  intros HM e1.
  unfold binary_round_aux, shr_fexp. cbn [shr_record_of_loc].
  destruct (shr_shifted_half M E (fexp64 (Zdigits2 M + E) - E) ltac:(lia))
    as (mrs1 & Hshr1 & Hsh1 & Hhalf1).
  rewrite Hshr1.
  replace (E + Z.max 0 (fexp64 (Zdigits2 M + E) - E)) with e1 by lia.
  replace (Z.max 0 (fexp64 (Zdigits2 M + E) - E)) with (e1 - E)
    in Hsh1, Hhalf1 by lia.
  set (M1 := round_nearest_even (shr_m mrs1) (loc_of_shr_record mrs1)).
  exists M1.
  assert (HM1 : 0 <= M1).
  { apply (round_nearest_even_between M (e1 - E) 0 M mrs1);
      [lia | assumption |].
    assert (0 < 2 ^ (e1 - E)) by (apply Z.pow_pos_nonneg; lia). nia. }
  split; [exact HM1|]. split.
  { intros h. apply round_nearest_even_below; [lia | assumption | assumption]. }
  destruct (shr_shifted M1 e1 (fexp64 (Zdigits2 M1 + e1) - e1) HM1)
    as (mrs2 & Hshr2 & [Hm2 _]).
  rewrite Hshr2, Hm2.
  replace (e1 + Z.max 0 (fexp64 (Zdigits2 M1 + e1) - e1))
    with (Z.max e1 (fexp64 (Zdigits2 M1 + e1))) by lia.
  replace (Z.max 0 (fexp64 (Zdigits2 M1 + e1) - e1))
    with (Z.max e1 (fexp64 (Zdigits2 M1 + e1)) - e1) by lia.
  reflexivity.
Qed.

(** A draw is a canonical binary64 number: its exponent is at least -1074. *)
Lemma unit_draw_exponent (m : positive) (e : Z) :
  Number.unit_draw (S754_finite false m e) = true -> -1074 <= e.
Proof.
  unfold Number.unit_draw. intros H.
  apply andb_true_iff in H as [H _]. apply andb_true_iff in H as [Hvalid _].
  cbn [valid_binary] in Hvalid. unfold bounded, canonical_mantissa in Hvalid.
  apply andb_true_iff in Hvalid as [Hcanon _]. apply Z.eqb_eq in Hcanon.
  rewrite fexp64_eq in Hcanon. lia.
Qed.

(** A product [r * K] of a draw and a constant [K = c * 2^ec >= 1] is zero,
    or positive and below [K]: it never rounds up to [K]. *)
Lemma mul_draw_below (r : number) (c : positive) (ec : Z) :
  Number.unit_draw r = true ->
  2 ^ 52 <= Z.pos c < 2 ^ 53 -> -52 <= ec <= 0 ->
  (exists s, Number.mul r (S754_finite false c ec) = S754_zero s)
  \/ exists m e,
       Number.mul r (S754_finite false c ec) = S754_finite false m e
       /\ e <= ec /\ Z.pos m < Z.pos c * 2 ^ (ec - e).
Proof.
  intros Hr Hc Hec.
  destruct (unit_draw_cases r Hr) as [[s ->]|(m & e & -> & He & Hm)].
  { left. eexists. reflexivity. }
  apply unit_draw_exponent in Hr as Hemin.
  unfold Number.mul, SFmul. cbn [xorb].
  destruct (binary_round_aux_exact_below false (Z.pos (m * c)) (e + ec)
              ltac:(lia)) as (M1 & HM1 & Hbelow & Heq).
  cbv zeta in Hbelow, Heq. cbn [Zdigits2] in Hbelow, Heq.
  rewrite Heq. clear Heq.
  set (E := e + ec) in *.
  set (d := Z.pos (digits2_pos (m * c))) in *.
  set (e1 := Z.max E (fexp64 (d + E))) in *.
  assert (Hprod : Z.pos (m * c) = Z.pos m * Z.pos c) by apply Pos2Z.inj_mul.
  assert (Hpe : 2 ^ 53 <= 2 ^ (- e)) by (apply Z.pow_le_mono_r; lia).
  destruct (digits2_pos_bounds (m * c)) as [Hdlo Hdhi]. fold d in Hdlo, Hdhi.
  assert (Hd : d <= 53 - e).
  { apply digits2_pos_le. rewrite Hprod.
    replace (53 - e) with (53 + (- e)) by lia. rewrite pow2_split by lia. nia. }
  assert (He1 : E <= e1 <= ec) by (subst e1 E; rewrite fexp64_eq; lia).
  assert (Hk : 2 ^ (e1 - E) < 2 * Z.pos c * (2 ^ (- e) - Z.pos m)).
  { assert (Hcases : e1 - E = 0 \/ e1 - E = d - 53 /\ 53 < d
                     \/ e1 - E = -1074 - E /\ 0 < -1074 - E)
      by (subst e1; rewrite fexp64_eq; lia).
    destruct Hcases as [->|[[-> Hd53]|[-> Hsub]]].
    - change (2 ^ 0) with 1. nia.
    - assert (Hsplit : 2 ^ (d - 1) = 2 ^ (d - 53) * 2 ^ 52).
      { replace (d - 1) with (d - 53 + 52) by lia. apply pow2_split; lia. }
      assert (0 < 2 ^ (d - 53)) by (apply Z.pow_pos_nonneg; lia).
      rewrite Hsplit, Hprod in Hdlo. nia.
    - assert (2 ^ (-1074 - E) <= 2 ^ 52) by (apply Z.pow_le_mono_r; subst E; lia).
      nia. }
  assert (Hpk : 0 < 2 ^ (e1 - E)) by (apply Z.pow_pos_nonneg; lia).
  assert (Hh : Z.pos c * 2 ^ (ec - e1) * 2 ^ (e1 - E) = Z.pos c * 2 ^ (- e)).
  { rewrite <- Z.mul_assoc, <- pow2_split by lia. f_equal. f_equal. subst E. lia. }
  assert (HM1' : M1 <= Z.pos c * 2 ^ (ec - e1) - 1).
  { apply Hbelow. rewrite Hprod. nia. }
  set (e2 := Z.max e1 (fexp64 (Zdigits2 M1 + e1))) in *.
  assert (Hp1 : 0 < 2 ^ (ec - e1)) by (apply Z.pow_pos_nonneg; lia).
  assert (He2 : e1 <= e2 <= ec).
  { split; [lia|]. subst e2. rewrite fexp64_eq.
    destruct M1 as [|p|p]; cbn [Zdigits2]; try lia.
    assert (Z.pos (digits2_pos p) <= 53 + (ec - e1)); [|lia].
    apply digits2_pos_le. rewrite pow2_split by lia. nia. }
  assert (Hq : 0 <= M1 / 2 ^ (e2 - e1) < Z.pos c * 2 ^ (ec - e2)).
  { assert (0 < 2 ^ (e2 - e1)) by (apply Z.pow_pos_nonneg; lia).
    split; [apply Z.div_pos; lia|].
    apply Z.div_lt_upper_bound; [assumption|].
    rewrite (Z.mul_comm (2 ^ (e2 - e1))), <- Z.mul_assoc, <- pow2_split by lia.
    replace (ec - e2 + (e2 - e1)) with (ec - e1) by lia. lia. }
  revert Hq.
  destruct (M1 / 2 ^ (e2 - e1)) as [|q|q]; intros Hq; [left; eauto| |lia].
  right. exists q, e2.
  replace (e2 <=? Number.emax - Number.prec) with true
    by (symmetry; apply Z.leb_le; unfold Number.emax, Number.prec; lia).
  split; [reflexivity|]. split; lia.
Qed.

(** [Math.floor(Math.random() * K)] is one of the integers [0 .. K-1]. *)
Lemma floor_mul_draw (r : number) (K : Z) (c : positive) (ec : Z) :
  random_value r = true ->
  2 ^ 52 <= Z.pos c < 2 ^ 53 -> -52 <= ec <= 0 ->
  Z.pos c = K * 2 ^ (- ec) ->
  exists k, 0 <= k < K
    /\ Math.floor (Number.mul r (S754_finite false c ec)) = Number.of_Z k.
Proof.
  intros Hr Hc Hec HK.
  assert (Hpec : 0 < 2 ^ (- ec)) by (apply Z.pow_pos_nonneg; lia).
  assert (HKpos : 0 < K) by nia.
  assert (Hu : Number.unit_draw r = true)
    by (destruct r as [[|]| | |]; first [discriminate Hr | exact Hr]).
  destruct r as [s|s| |s m e].
  - destruct s; [discriminate Hr|]. exists 0. split; [lia | reflexivity].
  - destruct s; discriminate Hu.
  - discriminate Hu.
  - destruct (mul_draw_below _ c ec Hu Hc Hec)
      as [[s' Hz]|(my & ey & Hy & Hey & Hmy)].
    + destruct (unit_draw_cases _ Hu) as [[s0 Habs]|(m0 & e0 & [= -> -> ->] & _)];
        [discriminate Habs|].
      exists 0. split; [lia|]. rewrite Hz.
      unfold Number.mul, SFmul in Hz. cbn [xorb] in Hz.
      assert (s' = false) as ->.
      { unfold binary_round_aux in Hz.
        destruct (shr_fexp _ _ _ _ _) as [mrs1 e1].
        destruct (shr_fexp _ _ _ _ _) as [mrs2 e2].
        destruct (shr_m mrs2); [congruence| |discriminate Hz].
        destruct (e2 <=? _); discriminate Hz. }
      reflexivity.
    + rewrite Hy. cbn [Math.floor cond_Zopp].
      exists (Z.pos my / 2 ^ (- ey)).
      assert (Hpey : 0 < 2 ^ (- ey)) by (apply Z.pow_pos_nonneg; lia).
      split.
      * split; [apply Z.div_pos; lia|].
        apply Z.div_lt_upper_bound; [assumption|].
        assert (Hsplit : 2 ^ (- ey) = 2 ^ (- ec) * 2 ^ (ec - ey)).
        { rewrite <- pow2_split by lia. f_equal. lia. }
        rewrite Hsplit. rewrite HK in Hmy. nia.
      * f_equal. rewrite <- Z.shiftl_div_pow2 by lia. f_equal.
Qed.

End FloorOfDraws.

Lemma of_Z_100 : Number.of_Z 100 = S754_finite false 7036874417766400 (-46).
Proof. vm_compute. reflexivity. Qed.

(** Comparing small integers as numbers is comparing them as integers. *)
Lemma ltb_of_Z_small (k bound : Z) :
  (0 <= k <= 99)%Z -> (bound = 30 \/ bound = 70)%Z ->
  Number.ltb (Number.of_Z k) (Number.of_Z bound) = (k <? bound)%Z.
Proof.
  intros Hk Hb.
  assert (Hall : forallb (fun n =>
            Bool.eqb (Number.ltb (Number.of_Z (Z.of_nat n)) (Number.of_Z 30))
                     (Z.of_nat n <? 30)%Z
            && Bool.eqb (Number.ltb (Number.of_Z (Z.of_nat n)) (Number.of_Z 70))
                        (Z.of_nat n <? 70)%Z) (seq 0 100) = true)
    by (vm_compute; reflexivity).
  rewrite forallb_forall in Hall.
  specialize (Hall (Z.to_nat k)). rewrite Z2Nat.id in Hall by lia.
  assert (Hin : In (Z.to_nat k) (seq 0 100)) by (apply in_seq; lia).
  apply Hall in Hin. apply andb_true_iff in Hin as [H30 H70].
  apply Bool.eqb_prop in H30, H70. destruct Hb as [->| ->]; assumption.
Qed.

Lemma add_85_small (k : Z) :
  (0 <= k <= 14)%Z ->
  Number.add (Number.of_Z 85) (Number.of_Z k) = Number.of_Z (85 + k).
Proof.
  intros Hk.
  assert (Hcases : (k = 0 \/ k = 1 \/ k = 2 \/ k = 3 \/ k = 4 \/ k = 5 \/ k = 6
                   \/ k = 7 \/ k = 8 \/ k = 9 \/ k = 10 \/ k = 11 \/ k = 12
                   \/ k = 13 \/ k = 14)%Z) by lia.
  repeat (destruct Hcases as [->|Hcases]; [vm_compute; reflexivity|]).
  subst k. vm_compute. reflexivity.
Qed.

(** X21. Whatever the two draws, [generateRiskData] gives a score that is
    one of the integers 0 to 99 and a confidence that is one of the
    integers 85 to 99: neither reaches 100. *)
Theorem X21_risk_data_ranges (rd : AnalyticsSection.Readings) :
  random_value (AnalyticsSection.Math_random rd 0) = true ->
  random_value (AnalyticsSection.Math_random rd 1) = true ->
  let data := AnalyticsSection.generateRiskData rd in
  exists score confidence : Z,
    AnalyticsSection.score data = Number.of_Z score
    /\ (0 <= score <= 99)%Z
    /\ AnalyticsSection.confidence data = Number.of_Z confidence
    /\ (85 <= confidence <= 99)%Z.
Proof.
  intros Hr0 Hr1. cbv zeta. unfold AnalyticsSection.generateRiskData.
  cbn [AnalyticsSection.score AnalyticsSection.confidence].
  rewrite of_Z_100, of_Z_15.
  destruct (floor_mul_draw _ 100 7036874417766400 (-46) Hr0)
    as (k0 & Hk0 & ->); [lia | lia | reflexivity |].
  destruct (floor_mul_draw _ 15 8444249301319680 (-49) Hr1)
    as (k1 & Hk1 & ->); [lia | lia | reflexivity |].
  exists k0, (85 + k1)%Z.
  split; [reflexivity|]. split; [lia|].
  split; [apply add_85_small; lia | lia].
Qed.

Lemma X21_risk_data_ranges_witness :
  exists score : Z,
    AnalyticsSection.score
      (AnalyticsSection.generateRiskData
         (AnalyticsSection.mkReadings (fun _ => largest_draw) "10:30 AM"))
    = Number.of_Z score
    /\ (0 <= score <= 99)%Z.
Proof.
  destruct (X21_risk_data_ranges
              (AnalyticsSection.mkReadings (fun _ => largest_draw) "10:30 AM"))
    as (score & confidence & Hs & Hr & _);
    [vm_compute; reflexivity | vm_compute; reflexivity |].
  exists score. split; assumption.
Defined.

(** X22. The label, the text colour and the background of a generated score
    name the same band: low below 30, medium from 30 to 69, high from 70. *)
Theorem X22_risk_band_consistent (rd : AnalyticsSection.Readings) :
  random_value (AnalyticsSection.Math_random rd 0) = true ->
  let score := AnalyticsSection.score (AnalyticsSection.generateRiskData rd) in
  exists k : Z,
    score = Number.of_Z k
    /\ (AnalyticsSection.riskLabel score,
        AnalyticsSection.getRiskColor score,
        AnalyticsSection.getRiskBgColor score)
       = if (k <? 30)%Z then ("Low Risk", "text-green-600", "bg-green-100")
         else if (k <? 70)%Z
              then ("Medium Risk", "text-yellow-600", "bg-yellow-100")
              else ("High Risk", "text-red-600", "bg-red-100").
Proof.
  intros Hr0. cbv zeta. unfold AnalyticsSection.generateRiskData.
  cbn [AnalyticsSection.score]. rewrite of_Z_100.
  destruct (floor_mul_draw _ 100 7036874417766400 (-46) Hr0)
    as (k & Hk & ->); [lia | lia | reflexivity |].
  exists k. split; [reflexivity|].
  unfold AnalyticsSection.riskLabel, AnalyticsSection.getRiskColor,
    AnalyticsSection.getRiskBgColor.
  rewrite !ltb_of_Z_small by (auto; lia).
  destruct (k <? 30)%Z; [reflexivity|]. destruct (k <? 70)%Z; reflexivity.
Qed.

Lemma X22_risk_band_consistent_witness :
  AnalyticsSection.riskLabel
    (AnalyticsSection.score
       (AnalyticsSection.generateRiskData
          (AnalyticsSection.mkReadings (fun _ => largest_draw) "10:30 AM")))
  = "High Risk".
Proof.
  destruct (X22_risk_band_consistent
              (AnalyticsSection.mkReadings (fun _ => largest_draw) "10:30 AM"))
    as (k & Hs & Hband); [vm_compute; reflexivity|].
  vm_compute. reflexivity.
Defined.

Lemma filter_none {A} (P : A -> Prop) `{!forall x, Decision (P x)} (l : list A) :
  (forall x, x ∈ l -> ~ P x) -> filter P l = [].
Proof.
  intros HP. induction l as [|x l IH]; [reflexivity|].
  rewrite filter_cons_False by (apply HP; left).
  apply IH. intros y Hy. apply HP. now right.
Qed.

Lemma filter_only_occurrence (series : string) (l : list string) :
  NoDup l -> series ∈ l -> filter (fun s => ~ s <> series) l = [series].
Proof.
  induction 1 as [|x l Hx Hl IH]; intros Hin; [inversion Hin|].
  apply elem_of_cons in Hin as [->|Hin].
  - rewrite filter_cons_True by (intros H; apply H; reflexivity).
    f_equal. apply filter_none. intros y Hy Hn.
    apply Hn. intros ->. contradiction.
  - rewrite filter_cons_False; [apply IH, Hin|].
    intros Hn. apply Hn. intros ->. contradiction.
Qed.

(** X23. Toggling a series flips whether it is selected and leaves the other
    series as they were, in their order; a selection without repetition
    stays without repetition. *)
Theorem X23_series_toggle (series : string) (prev : list string) :
  let next := AnalyticsSection.handleSeriesToggle series prev in
  (series ∈ next <-> series ∉ prev)
  /\ (forall other, other <> series -> other ∈ next <-> other ∈ prev)
  /\ filter (fun s => s <> series) next = filter (fun s => s <> series) prev
  /\ (NoDup prev -> NoDup next).
Proof.
  cbv zeta. unfold AnalyticsSection.handleSeriesToggle.
  destruct (bool_decide_reflect (series ∈ prev)) as [Hin|Hnot].
  - split; [|split; [|split]].
    + rewrite list_elem_of_filter. split; [intros [Hne _]; congruence | tauto].
    + intros other Hne. rewrite list_elem_of_filter. tauto.
    + rewrite list_filter_filter. apply list_filter_iff. tauto.
    + intros Hnd. apply NoDup_filter, Hnd.
  - split; [|split; [|split]].
    + rewrite elem_of_app, list_elem_of_singleton. tauto.
    + intros other Hne. rewrite elem_of_app, list_elem_of_singleton. tauto.
    + rewrite filter_app, filter_cons_False, filter_nil, app_nil_r by auto.
      reflexivity.
    + intros Hnd. apply NoDup_app. split; [exact Hnd|]. split.
      * intros x Hx Hs. apply list_elem_of_singleton in Hs as ->. contradiction.
      * apply NoDup_singleton.
Qed.

(** X24. Toggling a series twice restores the selection exactly when the
    series was not selected; when it was, the series comes back at the end
    of the list, so the selection is the same up to order. *)
Theorem X24_series_toggle_twice (series : string) (prev : list string) :
  let twice := AnalyticsSection.handleSeriesToggle series
                 (AnalyticsSection.handleSeriesToggle series prev) in
  (series ∉ prev -> twice = prev)
  /\ (series ∈ prev -> NoDup prev ->
      twice = filter (fun s => s <> series) prev ++ [series]
      /\ twice ≡ₚ prev).
Proof.
  cbv zeta. unfold AnalyticsSection.handleSeriesToggle. split.
  - intros Hnot. rewrite (bool_decide_eq_false_2 _ Hnot).
    rewrite bool_decide_eq_true_2
      by (rewrite elem_of_app, list_elem_of_singleton; auto).
    rewrite filter_app, filter_cons_False, filter_nil, app_nil_r by auto.
    apply filter_unchanged. intros x Hx ->. contradiction.
  - intros Hin Hnd. rewrite (bool_decide_eq_true_2 _ Hin).
    rewrite bool_decide_eq_false_2
      by (rewrite list_elem_of_filter; intros [Hne _]; congruence).
    split; [reflexivity|].
    rewrite <- (filter_only_occurrence series prev Hnd Hin).
    apply filter_app_complement.
Qed.

Lemma X24_series_toggle_twice_witness :
  AnalyticsSection.handleSeriesToggle "voltage"
    (AnalyticsSection.handleSeriesToggle "voltage" ["voltage"; "current"])
  = ["current"; "voltage"].
Proof.
  apply (proj2 (X24_series_toggle_twice "voltage" ["voltage"; "current"])).
  - left.
  - repeat (apply NoDup_cons; split;
            [rewrite ?elem_of_cons, elem_of_nil; intuition discriminate|]).
    apply NoDup_nil_2.
Defined.

(** ** The mobile shell *)

(** X25. Confirming an action while offline leaves the shell exactly as
    cancelling does and only says the action is queued; nothing of the
    action is kept, and coming back online runs nothing and says nothing.
    While online the confirmation reports success. *)
Theorem X25_offline_confirm_is_cancel (s : MobileFieldAppShell.Shell) :
  let confirm := MobileFieldAppShell.clickConfirm in
  (MobileFieldAppShell.isOnline s = false ->
     run confirm s = run MobileFieldAppShell.clickCancel s
     /\ logged confirm s
        = [toast_info "Action queued - will execute when online"]
     /\ run MobileFieldAppShell.handleOnline (run confirm s)
        = run MobileFieldAppShell.handleOnline
            (run MobileFieldAppShell.clickCancel s)
     /\ logged MobileFieldAppShell.handleOnline (run confirm s) = [])
  /\ (MobileFieldAppShell.isOnline s = true ->
        run confirm s = run MobileFieldAppShell.clickCancel s
        /\ exists message, logged confirm s = [toast_success message]).
Proof.
  cbv zeta.
  unfold run, logged, MobileFieldAppShell.clickConfirm,
    MobileFieldAppShell.clickCancel, MobileFieldAppShell.handleOnline,
    MobileFieldAppShell.handleIsolate, MobileFieldAppShell.handleReset,
    MobileFieldAppShell.setConfirmDialog, MobileFieldAppShell.setIsOnline,
    mbind, Fx_bind, fx_get, fx_modify, fx_toast.
  destruct s as [dr tab q [[[|]|] aid] ex online]; cbn;
    (split; intros ->; cbn; eauto).
Qed.

Lemma X25_offline_confirm_is_cancel_witness :
  logged MobileFieldAppShell.clickConfirm
    (run MobileFieldAppShell.handleOffline MobileFieldAppShell.initialShell)
  = [toast_info "Action queued - will execute when online"].
Proof.
  apply (proj1 (X25_offline_confirm_is_cancel
                  (run MobileFieldAppShell.handleOffline
                     MobileFieldAppShell.initialShell))).
  reflexivity.
Defined.
